(** * resume_tailor_script.py: skill filter, skills table and template filling

    A shallow embedding of the pure parts of [resume_tailor_script.py]
    together with the properties its specification states about them.

    Modelling conventions.
    - A Python [str] is a [string]; a character is a code point below 256
      (Latin-1), which is the range on which [str.lower] acts character by
      character.
    - A Python [dict] is its list of items in insertion order; a dict read
      from JSON has pairwise distinct keys, stated as [NoDup (map fst d)]
      where a property depends on it.
    - A Python [set] of strings is a [gset string].
    - A value produced by [json.loads] is a [json]; operations that Python
      checks dynamically return a [result], whose [Raise] carries the
      exception.
    - Files, the environment, the language model and the JSON decoder are
      explicit arguments of the functions that use them. *)

From Stdlib Require Import ZArith Ascii String List Lia.
From stdpp Require Import gmap strings.

(** ** Python string methods *)

Module PyStr.

(** [str.lower] on one code point below 256: the upper-case letters
    A-Z and the Latin-1 capitals 0xC0-0xDE (0xD7, the multiplication
    sign, apart) move up by 32. *)
Definition lower_char (c : ascii) : ascii :=
  let n := N_of_ascii c in
  if ((65 <=? n) && (n <=? 90) || (192 <=? n) && (n <=? 222) && negb (n =? 215))%N
  then ascii_of_N (n + 32)
  else c.

Fixpoint lower (s : string) : string :=
  match s with
  | EmptyString => EmptyString
  | String c s' => String (lower_char c) (lower s')
  end.

(** [str.isspace] on one code point below 256. *)
Definition isspace (c : ascii) : bool :=
  let n := N_of_ascii c in
  ((9 <=? n) && (n <=? 13) || (28 <=? n) && (n <=? 32) || (n =? 133) || (n =? 160))%N.

Fixpoint lstrip (s : string) : string :=
  match s with
  | EmptyString => EmptyString
  | String c s' => if isspace c then lstrip s' else s
  end.

Fixpoint rstrip (s : string) : string :=
  match s with
  | EmptyString => EmptyString
  | String c s' =>
      match rstrip s' with
      | EmptyString => if isspace c then EmptyString else String c EmptyString
      | r => String c r
      end
  end.

(** [s.strip()] *)
Definition strip (s : string) : string := rstrip (lstrip s).

(** [s.startswith(p)] *)
Fixpoint startswith (p s : string) : bool :=
  match p with
  | EmptyString => true
  | String a p' =>
      match s with
      | EmptyString => false
      | String b s' => if Ascii.eqb a b then startswith p' s' else false
      end
  end.

(** [sub in s] *)
Fixpoint str_in (sub s : string) : bool :=
  startswith sub s ||
  match s with
  | EmptyString => false
  | String _ s' => str_in sub s'
  end.

(** The scan of [s.replace(old, new)] for a non-empty [old]: [skip] counts
    the characters of a match that are still to be passed over. *)
Fixpoint replace_scan (old new : string) (skip : nat) (s : string) : string :=
  match s with
  | EmptyString => EmptyString
  | String c s' =>
      match skip with
      | S k => replace_scan old new k s'
      | O =>
          if startswith old s
          then new +:+ replace_scan old new (String.length old - 1) s'
          else String c (replace_scan old new O s')
      end
  end.

(** With an empty [old], Python puts [new] before every character and at
    the end. *)
Fixpoint interleave (new s : string) : string :=
  match s with
  | EmptyString => new
  | String c s' => new +:+ String c (interleave new s')
  end.

(** [s.replace(old, new)]: every occurrence of [old], found from the left
    and not overlapping an earlier one, becomes [new]. *)
Definition replace (old new s : string) : string :=
  match old with
  | EmptyString => interleave new s
  | String _ _ => replace_scan old new O s
  end.

(** [sep.join(l)] *)
Fixpoint join (sep : string) (l : list string) : string :=
  match l with
  | [] => EmptyString
  | [x] => x
  | x :: l' => x +:+ sep +:+ join sep l'
  end.

(** The characters of a string, as Python yields them when it iterates
    over a [str]. *)
Fixpoint chars (s : string) : list string :=
  match s with
  | EmptyString => []
  | String c s' => String c EmptyString :: chars s'
  end.

Definition nl : string := String "010"%char EmptyString.
Definition dquote : string := String "034"%char EmptyString.

End PyStr.

Import PyStr.

(** ** Exceptions *)

Inductive exn : Type :=
  | AttributeError
  | TypeError
  | IndexError
  | LLMError.

(** The outcome of a computation that may raise. *)
Inductive result (A : Type) : Type :=
  | Ok (a : A)
  | Raise (e : exn).
Arguments Ok {A} a.
Arguments Raise {A} e.

Global Instance result_ret : MRet result := fun A a => Ok a.
Global Instance result_bind : MBind result := fun A B f m =>
  match m with
  | Ok a => f a
  | Raise e => Raise e
  end.

(** [[f(x) for x in l]], stopping at the first exception. *)
Fixpoint traverse {A B : Type} (f : A -> result B) (l : list A) : result (list B) :=
  match l with
  | [] => Ok []
  | x :: l' => y ← f x; ys ← traverse f l'; Ok (y :: ys)
  end.

(** ** Dictionaries and JSON values *)

(** A dict, as the list of its items in insertion order. *)
Definition dict (V : Type) : Type := list (string * V).

(** [d.get(key)] *)
Fixpoint dict_get {V : Type} (key : string) (d : dict V) : option V :=
  match d with
  | [] => None
  | (k, v) :: d' => if String.eqb k key then Some v else dict_get key d'
  end.

(** [d[key] = v]: an existing key keeps its position, a new key goes to
    the end. *)
Fixpoint dict_set {V : Type} (key : string) (v : V) (d : dict V) : dict V :=
  match d with
  | [] => [(key, v)]
  | (k, w) :: d' => if String.eqb k key then (k, v) :: d' else (k, w) :: dict_set key v d'
  end.

#[local] Set Warnings "-register-all".

(** What [json.loads] returns (floating-point literals apart). *)
Inductive json : Type :=
  | JNull
  | JBool (b : bool)
  | JInt (z : Z)
  | JStr (s : string)
  | JList (l : list json)
  | JDict (d : list (string * json)).

(** [v.get(key, [])] *)
Definition get_or_empty (v : json) (key : string) : result json :=
  match v with
  | JDict d => Ok (default (JList []) (dict_get key d))
  | _ => Raise AttributeError
  end.

(** [for x in v]: the elements of a list, the characters of a string, the
    keys of a dict; anything else is not iterable. *)
Definition iterate (v : json) : result (list json) :=
  match v with
  | JList l => Ok l
  | JStr s => Ok (JStr <$> chars s)
  | JDict d => Ok ((fun kv => JStr kv.1) <$> d)
  | _ => Raise TypeError
  end.

(** ** Job profile extraction (lines 56-90) *)

(** The record returned when the response does not parse. *)
Definition empty_job_profile : json :=
  JDict [ ("required_skills", JList []);
          ("preferred_skills", JList []);
          ("tools", JList []);
          ("responsibilities", JList []);
          ("soft_skills", JList []);
          ("keywords", JList []);
          ("job_title", JStr "");
          ("company_name", JStr "") ].

Definition extract_system_prompt : string :=
  "Extract structured job requirements. Always return valid JSON.".

Definition extract_user_prompt (job_posting : string) : string :=
  nl +:+ "    Extract the following fields from the job posting and return ONLY valid JSON:" +:+ nl
  +:+ nl
  +:+ "    {" +:+ nl
  +:+ "      " +:+ dquote +:+ "required_skills" +:+ dquote +:+ ": []," +:+ nl
  +:+ "      " +:+ dquote +:+ "preferred_skills" +:+ dquote +:+ ": []," +:+ nl
  +:+ "      " +:+ dquote +:+ "tools" +:+ dquote +:+ ": []," +:+ nl
  +:+ "      " +:+ dquote +:+ "responsibilities" +:+ dquote +:+ ": []," +:+ nl
  +:+ "      " +:+ dquote +:+ "soft_skills" +:+ dquote +:+ ": []," +:+ nl
  +:+ "      " +:+ dquote +:+ "keywords" +:+ dquote +:+ ": []," +:+ nl
  +:+ "      " +:+ dquote +:+ "job_title" +:+ dquote +:+ ": " +:+ dquote +:+ dquote +:+ "," +:+ nl
  +:+ "      " +:+ dquote +:+ "company_name" +:+ dquote +:+ ": " +:+ dquote +:+ dquote +:+ nl
  +:+ "    }" +:+ nl
  +:+ nl
  +:+ "    Job posting:" +:+ nl
  +:+ "    " +:+ job_posting +:+ nl
  +:+ "    ".

(** [call_llm] is the language-model call: it returns the response text or
    raises. [json_loads] is the decoder: [None] stands for any exception it
    raises, all of which the bare [except] catches. The call to the model
    is outside the [try]. *)
Definition extract_job_profile
    (call_llm : string -> string -> result string)
    (json_loads : string -> option json)
    (job_posting : string) : result json :=
  text ← call_llm extract_system_prompt (extract_user_prompt job_posting);
  match json_loads text with
  | Some v => Ok v
  | None => Ok empty_job_profile
  end.

(** ** Skill filtering (lines 97-126) *)

Definition normalize_skill (s : string) : string := strip (lower s).

(** [normalize_skill(x)] for an [x] of any type: only a [str] has [lower]. *)
Definition normalize_skill_dyn (x : json) : result string :=
  match x with
  | JStr s => Ok (normalize_skill s)
  | _ => Raise AttributeError
  end.

Definition term_keys : list string :=
  ["required_skills"; "preferred_skills"; "tools"; "keywords"].

(** The terms contributed by one key. *)
Definition key_terms (job_profile : json) (key : string) : result (list string) :=
  v ← get_or_empty job_profile key;
  xs ← iterate v;
  traverse normalize_skill_dyn xs.

(** [job_terms = set(normalize_skill(x) for key in [...] for x in job_profile.get(key, []))] *)
Definition job_terms (job_profile : json) : result (gset string) :=
  tss ← traverse (key_terms job_profile) term_keys;
  Ok (list_to_set (concat tss)).

Definition ALWAYS_KEEP : gset string :=
  list_to_set [ "git"; "github"; "debugging"; "react"; "next.js";
                "node.js"; "express.js"; "sql"; "mysql"; "mongodb" ].

(** The condition of line 120. *)
Definition keep_skill (terms : gset string) (skill : string) : bool :=
  let norm := normalize_skill skill in
  existsb (fun term => str_in term norm || str_in norm term) (elements terms)
  || bool_decide (norm ∈ ALWAYS_KEEP).

(** The inner loop: [kept] grows by [append]. *)
Definition kept_skills (terms : gset string) (skills : list string) : list string :=
  fold_left (fun kept skill => if keep_skill terms skill then kept ++ [skill] else kept)
            skills [].

(** The outer loop over [master.items()]. *)
Definition filter_catalog (terms : gset string) (master : dict (list string))
    : dict (list string) :=
  fold_left (fun filtered item =>
               let kept := kept_skills terms item.2 in
               match kept with
               | [] => filtered
               | _ :: _ => dict_set item.1 kept filtered
               end)
            master [].

(** [master] is what [load_master_skills()] returned: a mapping from
    category to a list of skill names. *)
Definition build_relevant_skills (master : dict (list string)) (job_profile : json)
    : result (dict (list string)) :=
  terms ← job_terms job_profile;
  Ok (filter_catalog terms master).

(** ** Skills table (lines 133-147) *)

(** [for x in l: s = f(s, x)], stopping at the first exception. *)
Fixpoint foldM {A S : Type} (f : S -> A -> result S) (l : list A) (s : S) : result S :=
  match l with
  | [] => Ok s
  | x :: l' => s' ← f s x; foldM f l' s'
  end.

(** [range(start, stop, step)] for a positive [step]; [fuel] bounds the
    number of values. *)
Fixpoint range_from (fuel i stop step : nat) : list nat :=
  match fuel with
  | O => []
  | S fuel' => if i <? stop then i :: range_from fuel' (i + step) stop step else []
  end.

Definition py_range (start stop step : nat) : list nat :=
  range_from stop start stop step.

(** [l[i]] *)
Definition getitem (l : list string) (i : nat) : result string :=
  match l !! i with
  | Some x => Ok x
  | None => Raise IndexError
  end.

Definition category_row (category : string) : string :=
  "<tr><td class=" +:+ dquote +:+ "category" +:+ dquote +:+ ">" +:+ category
  +:+ "</td><td></td></tr>".

Definition skill_row (left right : string) : string :=
  "<tr><td class='skill-item'>" +:+ left +:+ "</td>"
  +:+ "<td class='skill-item'>" +:+ right +:+ "</td></tr>".

(** The body of the inner loop, for one [i]. *)
Definition append_skill_row (skills : list string) (rows : list string) (i : nat)
    : result (list string) :=
  left ← getitem skills i;
  right ← (if i + 1 <? length skills then getitem skills (i + 1) else Ok "");
  Ok (rows ++ [skill_row left right]).

(** The body of the outer loop, for one item of the dict. *)
Definition append_category (rows : list string) (item : string * list string)
    : result (list string) :=
  let rows := rows ++ [category_row item.1] in
  foldM (append_skill_row item.2) (py_range 0 (length item.2) 2) rows.

(** The list [rows] when the loops are over. *)
Definition table_rows (filtered_skills : dict (list string)) : result (list string) :=
  foldM append_category filtered_skills [].

Definition generate_skills_table_html (filtered_skills : dict (list string))
    : result string :=
  rows ← table_rows filtered_skills;
  Ok ("<table>" +:+ nl +:+ join nl rows +:+ nl +:+ "</table>").

(** ** Template filling (lines 214-241) *)

(** [os.getenv(key, default)] *)
Definition getenv (env : string -> option string) (key default : string) : string :=
  match env key with
  | Some v => v
  | None => default
  end.

Definition load_profile (env : string -> option string) : dict string :=
  [ ("FIRST_NAME", getenv env "FIRST_NAME" "");
    ("LAST_NAME", getenv env "LAST_NAME" "");
    ("EMAIL", getenv env "EMAIL" "");
    ("PHONE", getenv env "PHONE" "");
    ("ADDRESS", getenv env "ADDRESS" "");
    ("GITHUB", getenv env "GITHUB" "");
    ("LINKEDIN", getenv env "LINKEDIN" "") ].

(** The token of a key, [{{KEY}}]. *)
Definition placeholder (key : string) : string := "{{" +:+ key +:+ "}}".

Definition fill_static_placeholders (env : string -> option string) (html : string)
    : string :=
  let profile := load_profile env in
  fold_left (fun html item => replace (placeholder item.1) item.2 html) profile html.

(** [template] is the text of [resume_template.html]. *)
Definition fill_resume_template (env : string -> option string) (template : string)
    (summary projects experience skills_table_html : string) : string :=
  let html := template in
  let html := fill_static_placeholders env html in
  let html := replace "{{SUMMARY}}" (strip summary) html in
  let html := replace "{{PROJECTS}}" (replace nl "<br>" (strip projects)) html in
  let html := replace "{{EXPERIENCE}}" (replace nl "<br>" (strip experience)) html in
  let html := replace "{{SKILLS_TABLE}}" skills_table_html html in
  html.

Definition build_cover_letter_html (text : string) (job_profile : json) : string :=
  nl +:+ "    <html><body>" +:+ nl
  +:+ "    <div class=" +:+ dquote +:+ "container" +:+ dquote +:+ ">" +:+ nl
  +:+ "        <h2>Cover Letter</h2>" +:+ nl
  +:+ "        <p>" +:+ replace nl "<br>" text +:+ "</p>" +:+ nl
  +:+ "    </div>" +:+ nl
  +:+ "    </body></html>" +:+ nl
  +:+ "    ".

(** ** A decoder for a fragment of JSON

    The decoder of the Python library is an argument of
    [extract_job_profile]. Closed examples need a concrete one: [decode]
    reads the fragment of JSON made of [null], [true], [false], integers,
    strings without escapes, arrays and objects, and returns on it the value
    [json.loads] returns; outside the fragment it returns [None]. *)

Module JsonText.

Definition is_ws (c : ascii) : bool :=
  match c with
  | " " | "009" | "010" | "013" => true
  | _ => false
  end%char.

Fixpoint skip_ws (s : string) : string :=
  match s with
  | String c s' => if is_ws c then skip_ws s' else s
  | EmptyString => EmptyString
  end.

Fixpoint drop (n : nat) (s : string) : string :=
  match n, s with
  | S n', String _ s' => drop n' s'
  | _, _ => s
  end.

(** The body of a string literal up to its closing quote. *)
Fixpoint scan_string (s : string) : option (string * string) :=
  match s with
  | EmptyString => None
  | String c s' =>
      if Ascii.eqb c "034" then Some (EmptyString, s')
      else if Ascii.eqb c "\" || (N_of_ascii c <? 32)%N then None
      else match scan_string s' with
           | Some (body, rest) => Some (String c body, rest)
           | None => None
           end
  end.

Definition digit (c : ascii) : option Z :=
  let n := N_of_ascii c in
  if ((48 <=? n) && (n <=? 57))%N then Some (Z.of_N n - 48)%Z else None.

Fixpoint scan_digits (acc : Z) (s : string) : Z * string :=
  match s with
  | String c s' =>
      match digit c with
      | Some d => scan_digits (10 * acc + d)%Z s'
      | None => (acc, s)
      end
  | EmptyString => (acc, s)
  end.

(** A natural-number literal: no leading zero, no fraction, no exponent. *)
Definition scan_nat (s : string) : option (Z * string) :=
  match s with
  | String c s' =>
      match digit c with
      | Some d =>
          let '(n, rest) := if (d =? 0)%Z then (0%Z, s') else scan_digits d s' in
          match rest with
          | String c' _ =>
              if Ascii.eqb c' "." || Ascii.eqb c' "e" || Ascii.eqb c' "E"
                 || bool_decide (is_Some (digit c'))
              then None else Some (n, rest)
          | EmptyString => Some (n, rest)
          end
      | None => None
      end
  | EmptyString => None
  end.

Inductive mode : Type :=
  | Value
  | Elements (acc : list json)
  | Members (acc : dict json).

Fixpoint parse (fuel : nat) (m : mode) (s : string) : option (json * string) :=
  match fuel with
  | O => None
  | S fuel' =>
      let s := skip_ws s in
      match m with
      | Value =>
          if startswith "null" s then Some (JNull, drop 4 s)
          else if startswith "true" s then Some (JBool true, drop 4 s)
          else if startswith "false" s then Some (JBool false, drop 5 s)
          else match s with
               | String "034" r =>
                   match scan_string r with
                   | Some (body, rest) => Some (JStr body, rest)
                   | None => None
                   end
               | String "[" r =>
                   match skip_ws r with
                   | String "]" rest => Some (JList [], rest)
                   | _ => parse fuel' (Elements []) r
                   end
               | String "{" r =>
                   match skip_ws r with
                   | String "}" rest => Some (JDict [], rest)
                   | _ => parse fuel' (Members []) r
                   end
               | String "-" r =>
                   match scan_nat r with
                   | Some (n, rest) => Some (JInt (- n), rest)
                   | None => None
                   end
               | _ =>
                   match scan_nat s with
                   | Some (n, rest) => Some (JInt n, rest)
                   | None => None
                   end
               end
      | Elements acc =>
          match parse fuel' Value s with
          | Some (v, r) =>
              match skip_ws r with
              | String "," r' => parse fuel' (Elements (acc ++ [v])) r'
              | String "]" r' => Some (JList (acc ++ [v]), r')
              | _ => None
              end
          | None => None
          end
      | Members acc =>
          match s with
          | String "034" r =>
              match scan_string r with
              | Some (key, r1) =>
                  match skip_ws r1 with
                  | String ":" r2 =>
                      match parse fuel' Value r2 with
                      | Some (v, r3) =>
                          match skip_ws r3 with
                          | String "," r4 => parse fuel' (Members (dict_set key v acc)) r4
                          | String "}" r4 => Some (JDict (dict_set key v acc), r4)
                          | _ => None
                          end
                      | None => None
                      end
                  | _ => None
                  end
              | None => None
              end
          | _ => None
          end
      end
  end%char.

Definition decode (s : string) : option json :=
  match parse (2 * String.length s + 2) Value s with
  | Some (v, rest) =>
      match skip_ws rest with
      | EmptyString => Some v
      | String _ _ => None
      end
  | None => None
  end.

End JsonText.

(** ** Notions used to state the properties *)

(** [a] occurs in [b] as a run of consecutive characters. *)
Definition is_substring (a b : string) : Prop :=
  exists l r : string, b = l +:+ a +:+ r.

(** The field [key] of the profile holds the list of strings [xs]; a
    field that is absent counts as empty, as [get(key, [])] reads it. *)
Definition field_is (job_profile : json) (key : string) (xs : list string) : Prop :=
  exists d, job_profile = JDict d /\
            default (JList []) (dict_get key d) = JList (JStr <$> xs).

(** [skill] is listed under [category] in a catalog. *)
Definition in_catalog (d : dict (list string)) (category skill : string) : Prop :=
  exists skills, (category, skills) ∈ d /\ skill ∈ skills.

(** A catalog restricted to the skills that satisfy [keep], without the
    categories left empty. *)
Definition restrict_catalog (keep : string -> bool) (master : dict (list string))
    : dict (list string) :=
  List.filter (fun item => match item.2 with [] => false | _ :: _ => true end)
              ((fun item => (item.1, List.filter keep item.2)) <$> master).

(** The skill rows of one category as the specification describes them:
    two skills per row, in order, and a last row with an empty right cell
    when one skill is left over. *)
Fixpoint pair_rows (skills : list string) : list string :=
  match skills with
  | [] => []
  | [x] => [skill_row x ""]
  | x :: y :: rest => skill_row x y :: pair_rows rest
  end.

(** A list whose elements are all strings. *)
Definition is_string_list (v : json) : bool :=
  match v with
  | JList l => forallb (fun x => match x with JStr _ => true | _ => false end) l
  | _ => false
  end.

(** A well-formed job profile record: a record whose six list fields are
    lists of strings and whose [job_title] and [company_name] are strings. *)
Definition well_formed_profile (v : json) : bool :=
  match v with
  | JDict d =>
      forallb (fun key => match dict_get key d with
                          | Some x => is_string_list x
                          | None => false
                          end)
              ["required_skills"; "preferred_skills"; "tools";
               "responsibilities"; "soft_skills"; "keywords"]
      && forallb (fun key => match dict_get key d with
                             | Some (JStr _) => true
                             | _ => false
                             end)
                 ["job_title"; "company_name"]
  | _ => false
  end.

(** A language model that answers every prompt with the same text. *)
Definition constant_llm (response : string) : string -> string -> result string :=
  fun _ _ => Ok response.

(** The eleven replacements of [fill_resume_template], in the order in
    which it performs them: key and inserted value. *)
Definition replacements (env : string -> option string)
    (summary projects experience skills_table_html : string) : dict string :=
  load_profile env ++
  [ ("SUMMARY", strip summary);
    ("PROJECTS", replace nl "<br>" (strip projects));
    ("EXPERIENCE", replace nl "<br>" (strip experience));
    ("SKILLS_TABLE", skills_table_html) ].

(** Replacements performed one after the other, in the order of the list. *)
Definition apply_replacements (order : dict string) (html : string) : string :=
  fold_left (fun html item => replace (placeholder item.1) item.2 html) order html.

(** The keys that [fill_resume_template] replaces. *)
Definition known_keys : list string :=
  [ "FIRST_NAME"; "LAST_NAME"; "EMAIL"; "PHONE"; "ADDRESS"; "GITHUB"; "LINKEDIN";
    "SUMMARY"; "PROJECTS"; "EXPERIENCE"; "SKILLS_TABLE" ].

Definition is_open (c : ascii) : bool := Ascii.eqb "{" c.
Definition is_close (c : ascii) : bool := Ascii.eqb "}" c.

(** Text in which two opening braces never follow each other and which
    does not end in an opening brace: wherever it is put, it neither holds
    nor completes the start of a token. *)
Fixpoint safe_text (s : string) : bool :=
  match s with
  | EmptyString => true
  | String c s' =>
      negb (is_open c && match s' with
                         | EmptyString => true
                         | String c' _ => is_open c'
                         end)
      && safe_text s'
  end.

Fixpoint brace_free (s : string) : bool :=
  match s with
  | EmptyString => true
  | String c s' => negb (is_open c) && negb (is_close c) && brace_free s'
  end.

(** A key that is not empty and holds no brace. *)
Definition key_ok (key : string) : bool :=
  match key with
  | EmptyString => false
  | String _ _ => brace_free key
  end.

(** A template seen as a sequence of literal text and tokens. *)
Inductive segment : Type :=
  | Lit (text : string)
  | Tok (key : string).

Definition render_segment (seg : segment) : string :=
  match seg with
  | Lit text => text
  | Tok key => placeholder key
  end.

Fixpoint render (segs : list segment) : string :=
  match segs with
  | [] => EmptyString
  | seg :: segs' => render_segment seg +:+ render segs'
  end.

Definition segment_ok (seg : segment) : bool :=
  match seg with
  | Lit text => safe_text text
  | Tok key => key_ok key
  end.

(** One replacement, on a segment. *)
Definition subst_token (key value : string) (seg : segment) : segment :=
  match seg with
  | Lit text => Lit text
  | Tok k => if String.eqb key k then Lit value else Tok k
  end.

(** All the replacements of a list, on a segment. *)
Definition fill_segment (order : dict string) (seg : segment) : segment :=
  match seg with
  | Lit text => Lit text
  | Tok k => match dict_get k order with
             | Some value => Lit value
             | None => Tok k
             end
  end.

(** An environment in which only the first and last name are set. *)
Definition ada_env (key : string) : option string :=
  if String.eqb key "FIRST_NAME" then Some "Ada"
  else if String.eqb key "LAST_NAME" then Some "Lovelace"
  else None.

(** A template with a style sheet, five tokens of known keys and one token
    of an unknown key. *)
Definition sample_template : list segment :=
  [ Lit "<style>p { margin: 0 }</style><h1>"; Tok "FIRST_NAME"; Lit " ";
    Tok "LAST_NAME"; Lit "</h1><p>"; Tok "SUMMARY"; Lit "</p><div>";
    Tok "PROJECTS"; Lit "</div>"; Tok "SKILLS_TABLE"; Tok "FOOTER" ].

(** An environment in which nothing is set. *)
Definition no_env (key : string) : option string := None.

(** A profile whose only job term is padded with blanks and written in
    capitals, and whose fields that are not consulted name skills of the
    catalog below. *)
Definition padded_profile : json :=
  JDict [ ("required_skills", JList [JStr " SQL "]);
          ("preferred_skills", JList []);
          ("tools", JList []);
          ("responsibilities", JList [JStr "Oracle"]);
          ("soft_skills", JList [JStr "Excel"]);
          ("keywords", JList []);
          ("job_title", JStr "Oracle developer");
          ("company_name", JStr "") ].

Definition padded_catalog : dict (list string) :=
  [ ("Databases", ["PostgreSQL"; "Oracle"; "SQ"]);
    ("Tools", [" Git "; "Excel"]);
    ("Office", ["Excel"; "Word"]) ].

Definition tools_catalog : dict (list string) :=
  [ ("Tools", ["Git"; " GitHub "; "Excel"]); ("Other", ["COBOL"]) ].

Definition web_skills : dict (list string) :=
  [ ("Web", ["React"; "Next.js"; "Node.js"]); ("Data", ["SQL"]) ].


(** The profile and the catalog of the worked example of the
    specification. *)
Definition sql_profile : json :=
  JDict [ ("required_skills", JList [JStr "sql"]);
          ("preferred_skills", JList []);
          ("tools", JList []);
          ("responsibilities", JList []);
          ("soft_skills", JList []);
          ("keywords", JList []);
          ("job_title", JStr "");
          ("company_name", JStr "") ].

Definition databases_catalog : dict (list string) :=
  [ ("Databases", ["MySQL"; "MongoDB"]) ].

(** ** The callers (lines 256-290) *)

(** The first three statements of [tailor_for_job]: the profile is
    extracted from the posting, the catalog is filtered with it, and the
    table is rendered from what is kept. An exception of any of the three
    ends the run there. *)
Definition tailor_skills_table
    (call_llm : string -> string -> result string)
    (json_loads : string -> option json)
    (master : dict (list string)) (job_posting : string) : result string :=
  job_profile ← extract_job_profile call_llm json_loads job_posting;
  filtered_skills ← build_relevant_skills master job_profile;
  generate_skills_table_html filtered_skills.

(** The loop of the entry point. [stdin] holds the lines that [input()]
    returns one after the other; when they are used up [input()] raises
    [EOFError], which is [None] here. *)
Fixpoint read_posting_lines (stdin : list string) (lines : list string)
    : option (list string) :=
  match stdin with
  | [] => None
  | line :: stdin' =>
      match strip line with
      | EmptyString => Some lines
      | String _ _ => read_posting_lines stdin' (lines ++ [line])
      end
  end.

(** The text that the entry point passes to [tailor_for_job]. *)
Definition read_job_posting (stdin : list string) : option string :=
  match read_posting_lines stdin [] with
  | Some lines => Some (join nl lines)
  | None => None
  end.

(** A string that does not start with white space. *)
Definition no_lead (s : string) : Prop :=
  match s with
  | EmptyString => True
  | String c _ => isspace c = false
  end.

(** A value that Python cannot iterate over. *)
Definition not_iterable (v : json) : bool :=
  match v with
  | JNull | JBool _ | JInt _ => true
  | JStr _ | JList _ | JDict _ => false
  end.

Definition is_str (v : json) : bool :=
  match v with
  | JStr _ => true
  | _ => false
  end.

Definition is_dict (v : json) : bool :=
  match v with
  | JDict _ => true
  | _ => false
  end.

(** A category that lists at least one skill. *)
Definition has_skills (item : string * list string) : bool :=
  match item.2 with
  | [] => false
  | _ :: _ => true
  end.

Example lower_ex : lower "MySQL Ab" = "mysql ab".
Proof. reflexivity. Qed.
Example strip_ex : strip "  a b  " = "a b".
Proof. reflexivity. Qed.
Example replace_ex : replace "aa" "b" "aaaxaa" = "baxb".
Proof. reflexivity. Qed.
Example replace_ex2 : replace "" "-" "abc" = "-a-b-c-".
Proof. reflexivity. Qed.
Example in_ex : str_in "sql" "mysql" = true /\ str_in "sqx" "mysql" = false /\ str_in "" "" = true.
Proof. repeat split. Qed.
Example join_ex : join "," ["a";"b";"c"] = "a,b,c".
Proof. reflexivity. Qed.

Example filter_ex :
  build_relevant_skills [("Databases", ["MySQL"; "MongoDB"; "Oracle"]); ("X", ["Cobol"])]
     (JDict [("required_skills", JList [JStr "sql"])])
  = Ok [("Databases", ["MySQL"; "MongoDB"])].
Proof. vm_compute. reflexivity. Qed.

Example table_ex :
  generate_skills_table_html [("A", ["x"; "y"; "z"]); ("B", ["w"])]
  = Ok ("<table>" +:+ nl +:+
        category_row "A" +:+ nl +:+ skill_row "x" "y" +:+ nl +:+ skill_row "z" "" +:+ nl +:+
        category_row "B" +:+ nl +:+ skill_row "w" "" +:+ nl +:+ "</table>").
Proof. vm_compute. reflexivity. Qed.

Example decode_ex :
  JsonText.decode ("{" +:+ dquote +:+ "a" +:+ dquote +:+ ": [1, -20, true, null, " +:+ dquote +:+ "x y" +:+ dquote +:+ "], "
                   +:+ dquote +:+ "b" +:+ dquote +:+ " : {} }")
  = Some (JDict [("a", JList [JInt 1; JInt (-20); JBool true; JNull; JStr "x y"]); ("b", JDict [])]).
Proof. vm_compute. reflexivity. Qed.
Example decode_ex2 : JsonText.decode "[] x" = None /\ JsonText.decode "[1,]" = None /\ JsonText.decode "01" = None
   /\ JsonText.decode " [ ] " = Some (JList []) /\ JsonText.decode "Sure! Here is the JSON" = None.
Proof. vm_compute. repeat split. Qed.
Example fill_ex :
  fill_resume_template (fun k => if String.eqb k "EMAIL" then Some "a@b" else None)
     "<p>{{FIRST_NAME}}|{{EMAIL}}|{{SUMMARY}}|{{PROJECTS}}|{{SKILLS_TABLE}}|{{OTHER}}</p>"
     (" s" +:+ nl +:+ "t ") ("p" +:+ nl +:+ "q" +:+ nl) "" "T"
  = "<p>|a@b|s" +:+ nl +:+ "t|p<br>q|T|{{OTHER}}</p>".
Proof. vm_compute. reflexivity. Qed.

(** * Properties *)

(** ** Strings *)

Section StringFacts.

Lemma app_empty_l (s : string) : "" +:+ s = s.
Proof. reflexivity. Qed.

Lemma app_cons (c : ascii) (s t : string) : String c s +:+ t = String c (s +:+ t).
Proof. reflexivity. Qed.

Lemma app_empty_r (s : string) : s +:+ "" = s.
Proof. induction s as [|c s IH]; [done|]. by rewrite app_cons, IH. Qed.

Lemma app_assoc_str (a b c : string) : (a +:+ b) +:+ c = a +:+ b +:+ c.
Proof. induction a as [|x a IH]; [done|]. by rewrite !app_cons, IH. Qed.

Lemma startswith_spec (p s : string) :
  startswith p s = true <-> exists r, s = p +:+ r.
Proof.
  revert s. induction p as [|a p IH]; intros s; simpl.
  - split; [intros _; by exists s | done].
  - destruct s as [|b s]; [split; [done | by intros [r ?]]|].
    destruct (Ascii.eqb_spec a b) as [->|Hne].
    + rewrite IH. split; intros [r Hr]; exists r.
      * by rewrite app_cons, Hr.
      * rewrite app_cons in Hr. by simplify_eq.
    + split; [done|]. intros [r Hr]. rewrite app_cons in Hr. by simplify_eq.
Qed.

Lemma str_in_spec (a b : string) : str_in a b = true <-> is_substring a b.
Proof.
  induction b as [|c b IH]; simpl.
  - rewrite orb_false_r, startswith_spec. split.
    + intros [r Hr]. by exists "", r.
    + intros ([|x l] & r & Hr); [by exists r | by rewrite app_cons in Hr].
  - rewrite orb_true_iff, IH, startswith_spec. split.
    + intros [[r Hr] | (l & r & Hr)].
      * by exists "", r.
      * exists (String c l), r. by rewrite app_cons, Hr.
    + intros ([|x l] & r & Hr).
      * left. by exists r.
      * right. rewrite app_cons in Hr. simplify_eq. by exists l, r.
Qed.

End StringFacts.

(** ** The skill filter *)

Section Filter.

Lemma kept_skills_acc (terms : gset string) (skills acc : list string) :
  fold_left (fun kept skill => if keep_skill terms skill then kept ++ [skill] else kept)
            skills acc
  = acc ++ List.filter (keep_skill terms) skills.
Proof.
  revert acc. induction skills as [|x skills IH]; intros acc; simpl.
  - by rewrite app_nil_r.
  - rewrite IH. destruct (keep_skill terms x); [by rewrite <- app_assoc | done].
Qed.

(** The inner loop is a filter. *)
Lemma kept_skills_filter (terms : gset string) (skills : list string) :
  kept_skills terms skills = List.filter (keep_skill terms) skills.
Proof. unfold kept_skills. by rewrite kept_skills_acc. Qed.

Lemma dict_set_fresh {V : Type} (key : string) (v : V) (d : dict V) :
  key ∉ d.*1 -> dict_set key v d = d ++ [(key, v)].
Proof.
  induction d as [|[k w] d IH]; simpl; intros Hk; [done|].
  apply not_elem_of_cons in Hk as [Hne Hk].
  destruct (String.eqb_spec k key) as [->|_]; [done|]. by rewrite IH.
Qed.

Lemma restrict_catalog_keys (keep : string -> bool) (master : dict (list string)) :
  (restrict_catalog keep master).*1 `sublist_of` master.*1.
Proof.
  induction master as [|[c skills] master IH]; [done|].
  unfold restrict_catalog in *. simpl.
  destruct (List.filter keep skills); simpl; by constructor.
Qed.

Lemma filter_catalog_acc (terms : gset string) (master acc : dict (list string)) :
  NoDup master.*1 ->
  (forall k, k ∈ master.*1 -> k ∉ acc.*1) ->
  fold_left (fun filtered item =>
               let kept := kept_skills terms item.2 in
               match kept with
               | [] => filtered
               | _ :: _ => dict_set item.1 kept filtered
               end) master acc
  = acc ++ restrict_catalog (keep_skill terms) master.
Proof.
  revert acc. induction master as [|[c skills] master IH]; intros acc Hnd Hfresh.
  - simpl. by rewrite app_nil_r.
  - simpl in Hnd. apply NoDup_cons in Hnd as [Hc Hnd].
    cbn [fold_left]. cbv zeta. cbn [fst snd].
    rewrite kept_skills_filter.
    unfold restrict_catalog. cbn [fmap list_fmap List.filter fst snd].
    fold (restrict_catalog (keep_skill terms) master).
    destruct (List.filter (keep_skill terms) skills) as [|x kept] eqn:Hkept.
    + apply IH; [done|]. intros k Hk. apply Hfresh. simpl. by right.
    + rewrite dict_set_fresh by (apply Hfresh; simpl; by left).
      rewrite IH; [by rewrite <- app_assoc | done |].
      intros k Hk. rewrite fmap_app, elem_of_app. simpl.
      intros [Hin | Hin%list_elem_of_singleton].
      * revert Hin. apply Hfresh. simpl. by right.
      * by subst.
Qed.

(** For a catalog with distinct category names, the two loops compute
    the restriction of the catalog to the kept skills. *)
Lemma filter_catalog_restrict (terms : gset string) (master : dict (list string)) :
  NoDup master.*1 ->
  filter_catalog terms master = restrict_catalog (keep_skill terms) master.
Proof.
  intros Hnd. unfold filter_catalog.
  rewrite filter_catalog_acc; [done | done | intros k _; by apply not_elem_of_nil].
Qed.

Lemma restrict_catalog_elem (keep : string -> bool) (master : dict (list string))
    (category : string) (kept : list string) :
  (category, kept) ∈ restrict_catalog keep master <->
  kept <> [] /\ exists skills, (category, skills) ∈ master /\ kept = List.filter keep skills.
Proof.
  unfold restrict_catalog.
  rewrite list_elem_of_In, filter_In, <- list_elem_of_In, list_elem_of_fmap. simpl. split.
  - intros [([c skills] & Heq & Hin) Hne]. simpl in Heq. simplify_eq. split.
    + by destruct (List.filter keep skills).
    + by exists skills.
  - intros [Hne (skills & Hin & ->)]. split.
    + by exists (category, skills).
    + by destruct (List.filter keep skills).
Qed.

Lemma in_restrict_catalog (keep : string -> bool) (master : dict (list string))
    (category skill : string) :
  in_catalog (restrict_catalog keep master) category skill <->
  in_catalog master category skill /\ keep skill = true.
Proof.
  unfold in_catalog. split.
  - intros (kept & (Hne & skills & Hin & ->)%restrict_catalog_elem & Hs).
    apply list_elem_of_In, filter_In in Hs as [Hs Hk]. split; [|done].
    exists skills. by rewrite list_elem_of_In.
  - intros [(skills & Hin & Hs) Hk].
    assert (skill ∈ List.filter keep skills) as Hs'.
    { apply list_elem_of_In, filter_In. by rewrite <- list_elem_of_In. }
    exists (List.filter keep skills). split; [|done].
    apply restrict_catalog_elem. split; [|by exists skills].
    intros Hnil. rewrite Hnil in Hs'. by apply not_elem_of_nil in Hs'.
Qed.

(** Line 120, read as a proposition. *)
Lemma keep_skill_spec (terms : gset string) (skill : string) :
  keep_skill terms skill = true <->
  (exists term, term ∈ terms /\
     (is_substring (normalize_skill skill) term \/ is_substring term (normalize_skill skill)))
  \/ normalize_skill skill ∈ ALWAYS_KEEP.
Proof.
  unfold keep_skill. cbv zeta.
  rewrite orb_true_iff, existsb_exists, bool_decide_eq_true.
  apply or_iff_compat_r. split.
  - intros (term & Hin & Hm). exists term. split.
    + by apply elem_of_elements, list_elem_of_In.
    + apply orb_true_iff in Hm as [Hm | Hm]; apply str_in_spec in Hm; auto.
  - intros (term & Hin & Hm). exists term. split.
    + by apply list_elem_of_In, elem_of_elements.
    + apply orb_true_iff. rewrite !str_in_spec. tauto.
Qed.

Lemma traverse_normalize (xs : list string) :
  traverse normalize_skill_dyn (JStr <$> xs) = Ok (normalize_skill <$> xs).
Proof. induction xs as [|x xs IH]; [done|]. csimpl. by rewrite IH. Qed.

Lemma key_terms_field (job_profile : json) (key : string) (xs : list string) :
  field_is job_profile key xs ->
  key_terms job_profile key = Ok (normalize_skill <$> xs).
Proof.
  intros (d & -> & Hget). unfold key_terms. simpl. rewrite Hget. simpl.
  apply traverse_normalize.
Qed.

(** The term set of a profile whose four consulted fields are lists of
    strings. *)
Lemma job_terms_fields (job_profile : json) (req pref tls kws : list string) :
  field_is job_profile "required_skills" req ->
  field_is job_profile "preferred_skills" pref ->
  field_is job_profile "tools" tls ->
  field_is job_profile "keywords" kws ->
  job_terms job_profile
  = Ok (list_to_set (normalize_skill <$> (req ++ pref ++ tls ++ kws))).
Proof.
  intros H1 H2 H3 H4. unfold job_terms, term_keys. simpl.
  rewrite (key_terms_field _ _ _ H1), (key_terms_field _ _ _ H2),
    (key_terms_field _ _ _ H3), (key_terms_field _ _ _ H4). simpl.
  by rewrite app_nil_r, !fmap_app.
Qed.

Lemma restrict_catalog_NoDup (keep : string -> bool) (master : dict (list string)) :
  NoDup master.*1 -> NoDup (restrict_catalog keep master).*1.
Proof. intros Hnd. eapply sublist_NoDup; [exact Hnd|apply restrict_catalog_keys]. Qed.

Lemma list_filter_idemp {A : Type} (f : A -> bool) (l : list A) :
  List.filter f (List.filter f l) = List.filter f l.
Proof.
  induction l as [|x l IH]; [done|]. simpl.
  destruct (f x) eqn:Hx; [|done]. simpl. by rewrite Hx, IH.
Qed.

Lemma restrict_catalog_cons (keep : string -> bool) (c : string) (skills : list string)
    (master : dict (list string)) :
  restrict_catalog keep ((c, skills) :: master)
  = match List.filter keep skills with
    | [] => restrict_catalog keep master
    | x :: kept => (c, x :: kept) :: restrict_catalog keep master
    end.
Proof. unfold restrict_catalog. simpl. by destruct (List.filter keep skills). Qed.

Lemma restrict_catalog_idemp (keep : string -> bool) (master : dict (list string)) :
  restrict_catalog keep (restrict_catalog keep master) = restrict_catalog keep master.
Proof.
  induction master as [|[c skills] master IH]; [done|].
  rewrite restrict_catalog_cons.
  destruct (List.filter keep skills) as [|x kept] eqn:Hk; [done|].
  rewrite restrict_catalog_cons, <- Hk, list_filter_idemp, Hk. by rewrite IH.
Qed.

Lemma list_filter_sublist {A : Type} (f : A -> bool) (l : list A) :
  List.filter f l `sublist_of` l.
Proof.
  induction l as [|x l IH]; [done|]. simpl. destruct (f x); by constructor.
Qed.

Lemma dict_item_unique {V : Type} (d : dict V) (k : string) (v w : V) :
  NoDup d.*1 -> (k, v) ∈ d -> (k, w) ∈ d -> v = w.
Proof.
  induction d as [|[k' u] d IH]; simpl; intros Hnd Hv Hw.
  - by apply elem_of_nil in Hv.
  - apply NoDup_cons in Hnd as [Hk Hnd].
    apply elem_of_cons in Hv as [Hv | Hv]; apply elem_of_cons in Hw as [Hw | Hw].
    + congruence.
    + exfalso. apply Hk. apply list_elem_of_fmap. exists (k, w). split; [|done].
      simpl. congruence.
    + exfalso. apply Hk. apply list_elem_of_fmap. exists (k, v). split; [|done].
      simpl. congruence.
    + by apply IH.
Qed.

Lemma restrict_catalog_none (keep : string -> bool) (master : dict (list string)) :
  (forall category skill, in_catalog master category skill -> keep skill = false) ->
  restrict_catalog keep master = [].
Proof.
  induction master as [|[c skills] master IH]; intros Hall; [done|].
  rewrite restrict_catalog_cons.
  destruct (List.filter keep skills) as [|x kept] eqn:Hk.
  - apply IH. intros category skill (l & Hin & Hs). apply (Hall category).
    exists l. split; [by right | done].
  - assert (In x (List.filter keep skills)) as Hx by (rewrite Hk; by left).
    apply filter_In in Hx as [Hx Hkx].
    rewrite (Hall c x) in Hkx; [done|].
    exists skills. split; [by left | by apply list_elem_of_In].
Qed.

Lemma keep_skill_no_terms (skill : string) :
  keep_skill ∅ skill = bool_decide (normalize_skill skill ∈ ALWAYS_KEEP).
Proof. unfold keep_skill. by rewrite elements_empty. Qed.

Lemma ALWAYS_KEEP_list (s : string) :
  s ∈ ALWAYS_KEEP <->
  s ∈ [ "git"; "github"; "debugging"; "react"; "next.js";
        "node.js"; "express.js"; "sql"; "mysql"; "mongodb" ].
Proof. unfold ALWAYS_KEEP. apply elem_of_list_to_set. Qed.

(** C1: for a job profile whose four consulted fields are lists of strings
    (the other fields are not read) and a catalog with distinct category
    names, the filter returns a mapping that holds a catalog skill exactly
    when its lower-cased, trimmed form is a substring of some job term, or
    some job term is a substring of it, or it is one of the ten always-kept
    names; the job terms are the lower-cased, trimmed strings of
    [required_skills], [preferred_skills], [tools] and [keywords]. On the
    profile with [required_skills = ["sql"]] and the catalog
    [{"Databases": ["MySQL", "MongoDB"]}] both skills are retained: "mysql"
    contains "sql", and "mongodb" is always kept. On a profile whose term
    is [" SQL "] and whose [responsibilities] and [soft_skills] name
    "Oracle" and "Excel", the catalog keeps "PostgreSQL" (it contains the
    term), "SQ" (the term contains it) and [" Git "] (always kept once
    trimmed and lower-cased), and loses "Oracle", "Excel" and the category
    left empty. *)
Theorem skill_filter_rule (job_profile : json) (req pref tls kws : list string)
    (master : dict (list string)) :
  field_is job_profile "required_skills" req ->
  field_is job_profile "preferred_skills" pref ->
  field_is job_profile "tools" tls ->
  field_is job_profile "keywords" kws ->
  NoDup master.*1 ->
  (exists out,
      build_relevant_skills master job_profile = Ok out /\
      forall category skill,
        in_catalog out category skill <->
        in_catalog master category skill /\
        ((exists term,
             term ∈ (fun x => strip (lower x)) <$> (req ++ pref ++ tls ++ kws) /\
             (is_substring (strip (lower skill)) term \/
              is_substring term (strip (lower skill))))
         \/ strip (lower skill)
              ∈ [ "git"; "github"; "debugging"; "react"; "next.js";
                  "node.js"; "express.js"; "sql"; "mysql"; "mongodb" ]))
  /\ build_relevant_skills databases_catalog sql_profile
     = Ok [("Databases", ["MySQL"; "MongoDB"])]
  /\ strip (lower "MySQL") = "mysql"
  /\ is_substring "sql" "mysql"
  /\ strip (lower "MongoDB") = "mongodb"
  /\ build_relevant_skills padded_catalog padded_profile
     = Ok [("Databases", ["PostgreSQL"; "SQ"]); ("Tools", [" Git "])]
  /\ strip (lower " SQL ") = "sql"
  /\ strip (lower " Git ") = "git"
  /\ strip (lower "PostgreSQL") = "postgresql".
Proof.
  intros H1 H2 H3 H4 Hnd. split; [|repeat split; try by vm_compute].
  - unfold build_relevant_skills.
    rewrite (job_terms_fields _ _ _ _ _ H1 H2 H3 H4). simpl.
    eexists. split; [done|]. intros category skill.
    rewrite filter_catalog_restrict by done.
    rewrite in_restrict_catalog, keep_skill_spec, ALWAYS_KEEP_list.
    unfold normalize_skill. by setoid_rewrite elem_of_list_to_set.
  - apply str_in_spec. by vm_compute.
Qed.

Lemma skill_filter_rule_witness :
  (exists out,
      build_relevant_skills padded_catalog padded_profile = Ok out /\
      forall category skill,
        in_catalog out category skill <->
        in_catalog padded_catalog category skill /\
        ((exists term,
             term ∈ (fun x => strip (lower x)) <$> ([" SQL "] ++ [] ++ [] ++ []) /\
             (is_substring (strip (lower skill)) term \/
              is_substring term (strip (lower skill))))
         \/ strip (lower skill)
              ∈ [ "git"; "github"; "debugging"; "react"; "next.js";
                  "node.js"; "express.js"; "sql"; "mysql"; "mongodb" ]))
  /\ build_relevant_skills databases_catalog sql_profile
     = Ok [("Databases", ["MySQL"; "MongoDB"])]
  /\ strip (lower "MySQL") = "mysql"
  /\ is_substring "sql" "mysql"
  /\ strip (lower "MongoDB") = "mongodb"
  /\ build_relevant_skills padded_catalog padded_profile
     = Ok [("Databases", ["PostgreSQL"; "SQ"]); ("Tools", [" Git "])]
  /\ strip (lower " SQL ") = "sql"
  /\ strip (lower " Git ") = "git"
  /\ strip (lower "PostgreSQL") = "postgresql".
Proof.
  apply (skill_filter_rule padded_profile [" SQL "] [] [] [] padded_catalog).
  - eexists. split; reflexivity.
  - eexists. split; reflexivity.
  - eexists. split; reflexivity.
  - eexists. split; reflexivity.
  - apply (bool_decide_unpack _). vm_compute. exact I.
Defined.

(** C2: when [required_skills], [preferred_skills], [tools] and [keywords]
    are all empty, the filter raises nothing and its result holds exactly
    the catalog skills whose lower-cased, trimmed form is one of the ten
    always-kept names; if the catalog has no such skill the result is the
    empty mapping. With the all-empty profile, the catalog
    [{"Tools": ["Git", " GitHub ", "Excel"], "Other": ["COBOL"]}] gives
    [{"Tools": ["Git", " GitHub "]}] and the catalog
    [{"Other": ["COBOL"]}] gives the empty mapping. *)
Theorem empty_terms_keep_always_kept_only (job_profile : json)
    (master : dict (list string)) :
  field_is job_profile "required_skills" [] ->
  field_is job_profile "preferred_skills" [] ->
  field_is job_profile "tools" [] ->
  field_is job_profile "keywords" [] ->
  NoDup master.*1 ->
  job_terms job_profile = Ok ∅ /\
  (exists out,
    build_relevant_skills master job_profile = Ok out /\
    (forall category skill,
        in_catalog out category skill <->
        in_catalog master category skill /\
        strip (lower skill)
          ∈ [ "git"; "github"; "debugging"; "react"; "next.js";
              "node.js"; "express.js"; "sql"; "mysql"; "mongodb" ]) /\
    ((forall category skill,
         in_catalog master category skill ->
         strip (lower skill)
           ∉ [ "git"; "github"; "debugging"; "react"; "next.js";
               "node.js"; "express.js"; "sql"; "mysql"; "mongodb" ]) ->
     out = [])) /\
  build_relevant_skills tools_catalog empty_job_profile
  = Ok [("Tools", ["Git"; " GitHub "])] /\
  build_relevant_skills [("Other", ["COBOL"])] empty_job_profile = Ok [] /\
  strip (lower " GitHub ") = "github".
Proof.
  intros H1 H2 H3 H4 Hnd.
  pose proof (job_terms_fields _ _ _ _ _ H1 H2 H3 H4) as Hterms. simpl in Hterms.
  split; [done|]. split; [|repeat split; by vm_compute].
  unfold build_relevant_skills. rewrite Hterms. simpl.
  eexists. split; [done|].
  rewrite filter_catalog_restrict by done. split.
  - intros category skill.
    by rewrite in_restrict_catalog, keep_skill_no_terms, bool_decide_eq_true,
      ALWAYS_KEEP_list.
  - intros Hnone. apply restrict_catalog_none. intros category skill Hin.
    rewrite keep_skill_no_terms. apply bool_decide_eq_false.
    rewrite ALWAYS_KEEP_list. by eapply Hnone.
Qed.

Lemma empty_terms_keep_always_kept_only_witness :
  job_terms empty_job_profile = Ok ∅ /\
  (exists out,
    build_relevant_skills tools_catalog empty_job_profile = Ok out /\
    (forall category skill,
        in_catalog out category skill <->
        in_catalog tools_catalog category skill /\
        strip (lower skill)
          ∈ [ "git"; "github"; "debugging"; "react"; "next.js";
              "node.js"; "express.js"; "sql"; "mysql"; "mongodb" ]) /\
    ((forall category skill,
         in_catalog tools_catalog category skill ->
         strip (lower skill)
           ∉ [ "git"; "github"; "debugging"; "react"; "next.js";
               "node.js"; "express.js"; "sql"; "mysql"; "mongodb" ]) ->
     out = [])) /\
  build_relevant_skills tools_catalog empty_job_profile
  = Ok [("Tools", ["Git"; " GitHub "])] /\
  build_relevant_skills [("Other", ["COBOL"])] empty_job_profile = Ok [] /\
  strip (lower " GitHub ") = "github".
Proof.
  apply (empty_terms_keep_always_kept_only empty_job_profile tools_catalog).
  - eexists. split; reflexivity.
  - eexists. split; reflexivity.
  - eexists. split; reflexivity.
  - eexists. split; reflexivity.
  - apply (bool_decide_unpack _). vm_compute. exact I.
Defined.


(** C3: whenever the job terms can be computed, the filter returns the
    master catalog restricted to the kept skills: the categories of the
    output are a subsequence of the categories of the catalog, the skills
    of each category are the kept skills of that category in catalog
    order, a category with no kept skill is absent, and every skill of the
    output is a skill of the catalog under the same category. *)
Theorem filter_output_is_restriction (job_profile : json) (terms : gset string)
    (master : dict (list string)) :
  job_terms job_profile = Ok terms ->
  NoDup master.*1 ->
  exists out,
    build_relevant_skills master job_profile = Ok out /\
    out = restrict_catalog (keep_skill terms) master /\
    out.*1 `sublist_of` master.*1 /\
    (forall category kept,
        (category, kept) ∈ out ->
        kept <> [] /\
        exists skills, (category, skills) ∈ master /\
                       kept = List.filter (keep_skill terms) skills /\
                       kept `sublist_of` skills) /\
    (forall category skills,
        (category, skills) ∈ master ->
        List.filter (keep_skill terms) skills = [] ->
        category ∉ out.*1) /\
    (forall category skill,
        in_catalog out category skill -> in_catalog master category skill).
Proof.
  intros Hterms Hnd. unfold build_relevant_skills. rewrite Hterms. simpl.
  eexists. split; [done|]. rewrite filter_catalog_restrict by done.
  split; [done|]. split; [apply restrict_catalog_keys|]. split; [|split].
  - intros category kept (Hne & skills & Hin & ->)%restrict_catalog_elem.
    split; [done|]. exists skills. split; [done|]. split; [done|].
    apply list_filter_sublist.
  - intros category skills Hin Hnil Hc.
    apply list_elem_of_fmap in Hc as ([c kept] & Heq & Hc). simpl in Heq. subst c.
    apply restrict_catalog_elem in Hc as (Hne & skills' & Hin' & ->).
    by rewrite <- (dict_item_unique _ _ _ _ Hnd Hin Hin') in Hne.
  - intros category skill Hin. by apply in_restrict_catalog in Hin as [Hin _].
Qed.

Lemma filter_output_is_restriction_witness :
  exists out,
    build_relevant_skills databases_catalog sql_profile = Ok out /\
    out = restrict_catalog (keep_skill {["sql"]}) databases_catalog /\
    out.*1 `sublist_of` databases_catalog.*1 /\
    (forall category kept,
        (category, kept) ∈ out ->
        kept <> [] /\
        exists skills, (category, skills) ∈ databases_catalog /\
                       kept = List.filter (keep_skill {["sql"]}) skills /\
                       kept `sublist_of` skills) /\
    (forall category skills,
        (category, skills) ∈ databases_catalog ->
        List.filter (keep_skill {["sql"]}) skills = [] ->
        category ∉ out.*1) /\
    (forall category skill,
        in_catalog out category skill -> in_catalog databases_catalog category skill).
Proof.
  apply (filter_output_is_restriction sql_profile {["sql"]} databases_catalog).
  - vm_compute. reflexivity.
  - apply (bool_decide_unpack _). vm_compute. exact I.
Defined.

(** C8: filtering is idempotent. Whenever the job terms can be computed,
    the filter applied to a catalog returns a mapping, and applied to that
    mapping with the same profile it returns the same mapping. *)
Theorem filter_idempotent (job_profile : json) (terms : gset string)
    (master : dict (list string)) :
  job_terms job_profile = Ok terms ->
  NoDup master.*1 ->
  exists out,
    build_relevant_skills master job_profile = Ok out /\
    build_relevant_skills out job_profile = Ok out.
Proof.
  intros Hterms Hnd. unfold build_relevant_skills. rewrite Hterms. simpl.
  eexists. split; [done|]. f_equal.
  rewrite (filter_catalog_restrict _ master) by done.
  rewrite filter_catalog_restrict by by apply restrict_catalog_NoDup.
  apply restrict_catalog_idemp.
Qed.

Lemma filter_idempotent_witness :
  exists out,
    build_relevant_skills [("Databases", ["MySQL"; "Oracle"]); ("Legacy", ["COBOL"])]
                          sql_profile = Ok out /\
    build_relevant_skills out sql_profile = Ok out.
Proof.
  apply (filter_idempotent sql_profile {["sql"]}
           [("Databases", ["MySQL"; "Oracle"]); ("Legacy", ["COBOL"])]).
  - vm_compute. reflexivity.
  - apply (bool_decide_unpack _). vm_compute. exact I.
Defined.

End Filter.

(** ** The skills table *)

Section Table.

(** Induction over a list two elements at a time. *)
Lemma list_pair_ind {A : Type} (P : list A -> Prop) :
  P [] ->
  (forall a, P [a]) ->
  (forall a b l, P l -> P (a :: b :: l)) ->
  forall l, P l.
Proof.
  intros Hnil Hone Htwo l.
  assert (P l /\ forall a, P (a :: l)) as [Hl _]; [|done].
  induction l as [|x l [IH1 IH2]]; [by split|]. split; [apply IH2|].
  intros a. by apply Htwo.
Qed.

Lemma range_from_done (fuel i stop step : nat) :
  stop <= i -> range_from fuel i stop step = [].
Proof.
  intros Hle. destruct fuel as [|fuel]; [done|]. simpl.
  by rewrite (proj2 (Nat.ltb_ge i stop) Hle).
Qed.

Lemma getitem_middle (pre rest : list string) (x : string) :
  getitem (pre ++ x :: rest) (length pre) = Ok x.
Proof. unfold getitem. by rewrite list_lookup_middle. Qed.

Lemma append_skill_row_last (pre rows : list string) (a : string) :
  append_skill_row (pre ++ [a]) rows (length pre) = Ok (rows ++ [skill_row a ""]).
Proof.
  unfold append_skill_row. rewrite getitem_middle.
  by rewrite (proj2 (Nat.ltb_ge _ _)) by (rewrite length_app; simpl; lia).
Qed.

Lemma append_skill_row_pair (pre rest rows : list string) (a b : string) :
  append_skill_row (pre ++ a :: b :: rest) rows (length pre)
  = Ok (rows ++ [skill_row a b]).
Proof.
  unfold append_skill_row. rewrite getitem_middle.
  rewrite (proj2 (Nat.ltb_lt _ _)) by (rewrite length_app; simpl; lia).
  replace (getitem (pre ++ a :: b :: rest) (length pre + 1)) with (Ok b : result string);
    [done|].
  replace (pre ++ a :: b :: rest) with ((pre ++ [a]) ++ b :: rest)
    by (by rewrite <- app_assoc).
  replace (length pre + 1) with (length (pre ++ [a]))
    by (rewrite length_app; simpl; lia).
  by rewrite getitem_middle.
Qed.

(** The inner loop, started at an even position of the list. *)
Lemma skill_rows_from (fuel : nat) :
  forall (pre rest rows : list string),
    length rest <= fuel ->
    foldM (append_skill_row (pre ++ rest))
          (range_from fuel (length pre) (length (pre ++ rest)) 2) rows
    = Ok (rows ++ pair_rows rest).
Proof.
  induction fuel as [|fuel IH]; intros pre rest rows Hfuel.
  - destruct rest; [|simpl in Hfuel; lia]. simpl. by rewrite app_nil_r.
  - destruct rest as [|a [|b rest]].
    + rewrite range_from_done by (rewrite app_nil_r; lia). simpl.
      by rewrite app_nil_r.
    + cbn [range_from].
      rewrite (proj2 (Nat.ltb_lt _ _)) by (rewrite length_app; simpl; lia).
      cbn [foldM]. rewrite append_skill_row_last. csimpl.
      by rewrite range_from_done by (rewrite length_app; simpl; lia).
    + cbn [range_from].
      rewrite (proj2 (Nat.ltb_lt _ _)) by (rewrite length_app; simpl; lia).
      cbn [foldM]. rewrite append_skill_row_pair. csimpl.
      replace (pre ++ a :: b :: rest) with ((pre ++ [a; b]) ++ rest)
        by (by rewrite <- app_assoc).
      replace (length pre + 2) with (length (pre ++ [a; b]))
        by (rewrite length_app; simpl; lia).
      rewrite IH by (simpl in Hfuel; lia).
      by rewrite <- app_assoc.
Qed.

(** The inner loop appends the rows of the pairs and raises nothing. *)
Lemma append_category_rows (rows : list string) (item : string * list string) :
  append_category rows item = Ok (rows ++ category_row item.1 :: pair_rows item.2).
Proof.
  unfold append_category, py_range. cbv zeta.
  rewrite (skill_rows_from (length item.2) [] item.2) by done.
  by rewrite <- app_assoc.
Qed.

Lemma table_rows_acc (filtered_skills : dict (list string)) (rows : list string) :
  foldM append_category filtered_skills rows
  = Ok (rows ++ concat ((fun item => category_row item.1 :: pair_rows item.2)
                          <$> filtered_skills)).
Proof.
  revert rows. induction filtered_skills as [|item d IH]; intros rows.
  - simpl. by rewrite app_nil_r.
  - cbn [foldM]. rewrite append_category_rows. csimpl. rewrite IH.
    by rewrite <- app_assoc.
Qed.

Lemma pair_rows_length (skills : list string) :
  length (pair_rows skills) = (length skills + 1) / 2.
Proof.
  induction skills as [| a | a b l IH] using list_pair_ind; [done..|].
  cbn [pair_rows length]. rewrite IH.
  replace (S (S (length l)) + 1) with ((length l + 1) + 1 * 2) by lia.
  rewrite Nat.div_add by lia. lia.
Qed.

Lemma pair_rows_lookup (skills : list string) :
  forall (k : nat) (left : string),
    skills !! (2 * k) = Some left ->
    pair_rows skills !! k
    = Some (skill_row left (default "" (skills !! (2 * k + 1)))).
Proof.
  induction skills as [| a | a b l IH] using list_pair_ind; intros k left Hk.
  - done.
  - destruct k as [|k]; [by simplify_eq/= | done].
  - destruct k as [|k]; [by simplify_eq/=|].
    replace (2 * S k) with (S (S (2 * k))) in Hk by lia.
    replace (2 * S k + 1) with (S (S (2 * k + 1))) by lia.
    simpl in Hk. cbn [pair_rows lookup list_lookup]. by apply IH.
Qed.

Lemma pair_rows_odd_last (skills : list string) :
  Nat.Odd (length skills) ->
  exists x, last skills = Some x /\ last (pair_rows skills) = Some (skill_row x "").
Proof.
  induction skills as [| a | a b l IH] using list_pair_ind; intros Hodd.
  - destruct Hodd as [m Hm]. simpl in Hm. lia.
  - by exists a.
  - destruct IH as (x & Hx & Hrow).
    { destruct Hodd as [m Hm]. simpl in Hm. exists (m - 1). lia. }
    exists x. cbn [pair_rows]. by rewrite !last_cons, Hx, Hrow.
Qed.

(** C7: the renderer raises nothing; its rows are, category after
    category in the order of the mapping, the header row of the category
    followed by the skill rows of the category, and the markup is these
    rows joined by newlines inside the table tags. The header row holds the
    category in a cell of class [category] and an empty cell; a skill row
    holds its two skills in two cells of class [skill-item], the first on
    the left. A category of N skills has ceil(N/2) = (N+1)/2 skill rows,
    row k holding skill 2k on the left and skill 2k+1 (or nothing, when
    there is none) on the right; when N is odd the last row holds the last
    skill on the left and an empty right cell. The mapping
    [{"Web": ["React", "Next.js", "Node.js"], "Data": ["SQL"]}] gives the
    six rows written out below. *)
Theorem skills_table_layout (filtered_skills : dict (list string)) :
  let rows := concat ((fun item => category_row item.1 :: pair_rows item.2)
                        <$> filtered_skills) in
  (table_rows filtered_skills = Ok rows /\
   generate_skills_table_html filtered_skills
   = Ok ("<table>" +:+ nl +:+ join nl rows +:+ nl +:+ "</table>") /\
   forall category skills,
     (category, skills) ∈ filtered_skills ->
     length (pair_rows skills) = (length skills + 1) / 2 /\
     (forall k left,
         skills !! (2 * k) = Some left ->
         pair_rows skills !! k
         = Some (skill_row left (default "" (skills !! (2 * k + 1))))) /\
     (Nat.Odd (length skills) ->
      exists x, last skills = Some x /\
                last (pair_rows skills) = Some (skill_row x ""))) /\
  (forall category,
      category_row category
      = "<tr><td class=" +:+ String "034" "" +:+ "category" +:+ String "034" ""
        +:+ ">" +:+ category +:+ "</td><td></td></tr>") /\
  (forall left right,
      skill_row left right
      = "<tr><td class='skill-item'>" +:+ left
        +:+ "</td><td class='skill-item'>" +:+ right +:+ "</td></tr>") /\
  (forall skills k left,
      skills !! (2 * k) = Some left ->
      pair_rows skills !! k
      = Some ("<tr><td class='skill-item'>" +:+ left
              +:+ "</td><td class='skill-item'>"
              +:+ default "" (skills !! (2 * k + 1)) +:+ "</td></tr>")) /\
  (forall skills,
      Nat.Odd (length skills) ->
      exists x, last skills = Some x /\
                last (pair_rows skills)
                = Some ("<tr><td class='skill-item'>" +:+ x
                        +:+ "</td><td class='skill-item'></td></tr>")) /\
  (forall x y z, join (String "010" "") [x; y; z]
                 = x +:+ String "010" "" +:+ y +:+ String "010" "" +:+ z) /\
  generate_skills_table_html web_skills
  = Ok ("<table>" +:+ String "010" ""
        +:+ "<tr><td class=" +:+ String "034" "" +:+ "category" +:+ String "034" ""
        +:+ ">Web</td><td></td></tr>" +:+ String "010" ""
        +:+ "<tr><td class='skill-item'>React</td><td class='skill-item'>Next.js</td></tr>"
        +:+ String "010" ""
        +:+ "<tr><td class='skill-item'>Node.js</td><td class='skill-item'></td></tr>"
        +:+ String "010" ""
        +:+ "<tr><td class=" +:+ String "034" "" +:+ "category" +:+ String "034" ""
        +:+ ">Data</td><td></td></tr>" +:+ String "010" ""
        +:+ "<tr><td class='skill-item'>SQL</td><td class='skill-item'></td></tr>"
        +:+ String "010" "" +:+ "</table>").
Proof.
  intros rows.
  assert (table_rows filtered_skills = Ok rows) as Hrows.
  { unfold table_rows. by rewrite table_rows_acc. }
  split; [|split; [|split; [|split; [|split; [|split]]]]].
  - split; [done|]. split.
    + unfold generate_skills_table_html. by rewrite Hrows.
    + intros category skills _. split; [apply pair_rows_length|].
      split; [apply pair_rows_lookup | apply pair_rows_odd_last].
  - reflexivity.
  - reflexivity.
  - intros skills k left Hk. rewrite (pair_rows_lookup skills k left Hk).
    reflexivity.
  - intros skills Hodd. destruct (pair_rows_odd_last skills Hodd) as (x & Hx & Hlast).
    exists x. split; [done|]. rewrite Hlast. reflexivity.
  - reflexivity.
  - by vm_compute.
Qed.

Lemma skills_table_layout_witness :
  table_rows web_skills
  = Ok [ category_row "Web"; skill_row "React" "Next.js"; skill_row "Node.js" "";
         category_row "Data"; skill_row "SQL" "" ] /\
  length (pair_rows ["React"; "Next.js"; "Node.js"]) = 2 /\
  (exists x, last ["React"; "Next.js"; "Node.js"] = Some x /\
             last (pair_rows ["React"; "Next.js"; "Node.js"])
             = Some ("<tr><td class='skill-item'>" +:+ x
                     +:+ "</td><td class='skill-item'></td></tr>")) /\
  pair_rows ["React"; "Next.js"; "Node.js"] !! 0
  = Some ("<tr><td class='skill-item'>" +:+ "React"
          +:+ "</td><td class='skill-item'>"
          +:+ default "" (["React"; "Next.js"; "Node.js"] !! (2 * 0 + 1))
          +:+ "</td></tr>").
Proof.
  pose proof (skills_table_layout web_skills) as H.
  cbv zeta in H. destruct H as ((Hrows & _ & Hcat) & _ & _ & Hlookup & Hodd & _).
  destruct (Hcat "Web" ["React"; "Next.js"; "Node.js"]) as (Hlen & _ & _).
  { apply list_elem_of_here. }
  split; [exact Hrows|]. split; [exact Hlen|]. split.
  - apply Hodd. exists 1. reflexivity.
  - apply (Hlookup ["React"; "Next.js"; "Node.js"] 0 "React"). reflexivity.
Defined.


End Table.

(** ** Job profile extraction *)

Section Extraction.

Variable call_llm : string -> string -> result string.
Variable json_loads : string -> option json.

(** What [extract_job_profile] returns once the model has answered. *)
Lemma extract_job_profile_answer (job_posting text : string) :
  call_llm extract_system_prompt (extract_user_prompt job_posting) = Ok text ->
  extract_job_profile call_llm json_loads job_posting
  = Ok (default empty_job_profile (json_loads text)).
Proof.
  intros Hllm. unfold extract_job_profile. rewrite Hllm. simpl.
  by destruct (json_loads text).
Qed.

(** C4: when the response of the model does not parse as JSON,
    [extract_job_profile] raises nothing and returns the record whose six
    list fields are empty lists and whose [job_title] and [company_name]
    are empty strings. *)
Theorem unparsable_response_gives_empty_profile (job_posting text : string) :
  call_llm extract_system_prompt (extract_user_prompt job_posting) = Ok text ->
  json_loads text = None ->
  extract_job_profile call_llm json_loads job_posting
  = Ok (JDict [ ("required_skills", JList []);
                ("preferred_skills", JList []);
                ("tools", JList []);
                ("responsibilities", JList []);
                ("soft_skills", JList []);
                ("keywords", JList []);
                ("job_title", JStr "");
                ("company_name", JStr "") ]).
Proof.
  intros Hllm Hparse. rewrite (extract_job_profile_answer _ _ Hllm), Hparse. done.
Qed.

(** C9, as the code has it: once the model has answered,
    [extract_job_profile] returns the parsed value unchanged whenever the
    response parses as JSON, whether or not that value is a well-formed
    job profile record; it returns the all-empty record when the response
    does not parse, and only then or when the response parses to that very
    record. *)
Theorem fallback_only_on_parse_failure (job_posting text : string) :
  call_llm extract_system_prompt (extract_user_prompt job_posting) = Ok text ->
  (forall v, json_loads text = Some v ->
             extract_job_profile call_llm json_loads job_posting = Ok v) /\
  (json_loads text = None ->
   extract_job_profile call_llm json_loads job_posting = Ok empty_job_profile) /\
  (extract_job_profile call_llm json_loads job_posting = Ok empty_job_profile ->
   json_loads text = None \/ json_loads text = Some empty_job_profile).
Proof.
  intros Hllm. rewrite (extract_job_profile_answer _ _ Hllm).
  destruct (json_loads text) as [v|]; simpl.
  - split; [by intros ? [= ->]|]. split; [done|]. intros [= ->]. by right.
  - split; [done|]. split; [done|]. by left.
Qed.

End Extraction.

Lemma unparsable_response_gives_empty_profile_witness :
  extract_job_profile (constant_llm "Sure! Here is the JSON you asked for.")
                      JsonText.decode "Junior developer, SQL required"
  = Ok (JDict [ ("required_skills", JList []);
                ("preferred_skills", JList []);
                ("tools", JList []);
                ("responsibilities", JList []);
                ("soft_skills", JList []);
                ("keywords", JList []);
                ("job_title", JStr "");
                ("company_name", JStr "") ]).
Proof.
  apply (unparsable_response_gives_empty_profile
           (constant_llm "Sure! Here is the JSON you asked for.") JsonText.decode
           "Junior developer, SQL required" "Sure! Here is the JSON you asked for.").
  - reflexivity.
  - vm_compute. reflexivity.
Defined.

(** The response [[]] parses as JSON, to a list, which is not a job profile
    record; [extract_job_profile] returns that list and not the all-empty
    record. The same happens with the object [{}], which has none of the
    eight fields. *)
Lemma parsed_non_record_is_returned :
  (JsonText.decode "[]" = Some (JList []) /\
   well_formed_profile (JList []) = false /\
   extract_job_profile (constant_llm "[]") JsonText.decode "Junior developer"
   = Ok (JList []) /\
   extract_job_profile (constant_llm "[]") JsonText.decode "Junior developer"
   <> Ok empty_job_profile) /\
  (JsonText.decode "{}" = Some (JDict []) /\
   well_formed_profile (JDict []) = false /\
   extract_job_profile (constant_llm "{}") JsonText.decode "Junior developer"
   = Ok (JDict []) /\
   extract_job_profile (constant_llm "{}") JsonText.decode "Junior developer"
   <> Ok empty_job_profile).
Proof. split; (repeat split; [by vm_compute..|]); by vm_compute. Qed.

Lemma fallback_only_on_parse_failure_witness :
  (forall v, JsonText.decode "[]" = Some v ->
             extract_job_profile (constant_llm "[]") JsonText.decode "Junior developer"
             = Ok v) /\
  (JsonText.decode "[]" = None ->
   extract_job_profile (constant_llm "[]") JsonText.decode "Junior developer"
   = Ok empty_job_profile) /\
  (extract_job_profile (constant_llm "[]") JsonText.decode "Junior developer"
   = Ok empty_job_profile ->
   JsonText.decode "[]" = None \/ JsonText.decode "[]" = Some empty_job_profile).
Proof.
  apply (fallback_only_on_parse_failure (constant_llm "[]") JsonText.decode
           "Junior developer" "[]").
  reflexivity.
Defined.

(** ** The cover letter *)

(** C10: the cover-letter markup does not depend on the job profile: it is
    the fixed frame around the text with its newlines replaced by [<br>]. *)
Theorem cover_letter_ignores_profile (text : string) (p1 p2 : json) :
  build_cover_letter_html text p1 = build_cover_letter_html text p2 /\
  build_cover_letter_html text p1
  = nl +:+ "    <html><body>" +:+ nl
    +:+ "    <div class=" +:+ dquote +:+ "container" +:+ dquote +:+ ">" +:+ nl
    +:+ "        <h2>Cover Letter</h2>" +:+ nl
    +:+ "        <p>" +:+ replace nl "<br>" text +:+ "</p>" +:+ nl
    +:+ "    </div>" +:+ nl
    +:+ "    </body></html>" +:+ nl
    +:+ "    ".
Proof. split; reflexivity. Qed.

(** ** Template filling *)

Section Template.

Lemma fill_resume_template_replacements (env : string -> option string)
    (template summary projects experience skills_table_html : string) :
  fill_resume_template env template summary projects experience skills_table_html
  = apply_replacements
      (replacements env summary projects experience skills_table_html) template.
Proof. reflexivity. Qed.

Lemma replace_scan_nomatch (old new : string) (c : ascii) (s : string) :
  startswith old (String c s) = false ->
  replace_scan old new 0 (String c s) = String c (replace_scan old new 0 s).
Proof. intros H. cbn [replace_scan]. by rewrite H. Qed.

Lemma replace_scan_skip (old new p rest : string) :
  replace_scan old new (String.length p) (p +:+ rest) = replace_scan old new 0 rest.
Proof. induction p as [|c p IH]; [done|]. rewrite app_cons. by cbn. Qed.

Lemma replace_scan_match (a : ascii) (old' new rest : string) :
  replace_scan (String a old') new 0 (String a old' +:+ rest)
  = new +:+ replace_scan (String a old') new 0 rest.
Proof.
  rewrite app_cons. cbn [replace_scan].
  rewrite (proj2 (startswith_spec (String a old') (String a (old' +:+ rest))))
    by (by exists rest).
  cbn [String.length]. rewrite Nat.sub_succ, Nat.sub_0_r.
  by rewrite replace_scan_skip.
Qed.

Lemma placeholder_cons (key : string) :
  placeholder key = String "{" (String "{" (key +:+ "}}")).
Proof. reflexivity. Qed.

Lemma safe_text_tail (c : ascii) (p : string) :
  safe_text (String c p) = true -> safe_text p = true.
Proof. cbn [safe_text]. by intros [_ ?]%andb_true_iff. Qed.

(** No token starts inside safe text, whatever follows it. *)
Lemma startswith_placeholder_safe (key : string) (c : ascii) (p rest : string) :
  safe_text (String c p) = true ->
  startswith (placeholder key) (String c p +:+ rest) = false.
Proof.
  intros Hsafe. rewrite placeholder_cons, app_cons. cbn [startswith].
  cbn [safe_text] in Hsafe. apply andb_true_iff in Hsafe as [Hc _].
  unfold is_open in Hc.
  destruct (Ascii.eqb "{" c); [|done]. rewrite andb_true_l in Hc.
  destruct p as [|c' p]; [done|]. rewrite app_cons.
  by destruct (Ascii.eqb "{" c').
Qed.

Lemma replace_scan_safe_prefix (key value p rest : string) :
  safe_text p = true ->
  replace_scan (placeholder key) value 0 (p +:+ rest)
  = p +:+ replace_scan (placeholder key) value 0 rest.
Proof.
  induction p as [|c p IH]; intros Hsafe; [done|].
  pose proof (startswith_placeholder_safe key c p rest Hsafe) as Hno.
  rewrite app_cons in Hno |- *.
  rewrite (replace_scan_nomatch _ _ _ _ Hno), app_cons.
  f_equal. apply IH. by eapply safe_text_tail.
Qed.

Lemma str_in_safe_prefix (key p rest : string) :
  safe_text p = true ->
  str_in (placeholder key) (p +:+ rest) = str_in (placeholder key) rest.
Proof.
  induction p as [|c p IH]; intros Hsafe; [done|].
  pose proof (startswith_placeholder_safe key c p rest Hsafe) as Hno.
  rewrite app_cons in Hno |- *. cbn [str_in]. rewrite Hno. simpl.
  apply IH. by eapply safe_text_tail.
Qed.

(** Two keys without braces that agree up to the closing braces are
    equal. *)
Lemma key_closed_inj (key k rest : string) :
  brace_free key = true -> brace_free k = true ->
  startswith (key +:+ "}}") (k +:+ "}}" +:+ rest) = true -> key = k.
Proof.
  revert k. induction key as [|a key IH]; intros [|b k] Hkey Hk Hstart.
  - done.
  - rewrite app_empty_l, app_cons in Hstart. cbn [startswith] in Hstart.
    cbn [brace_free] in Hk. unfold is_close in Hk.
    destruct (Ascii.eqb "}" b); [|done]. by rewrite andb_false_r in Hk.
  - rewrite app_empty_l, app_cons in Hstart.
    change ("}}" +:+ rest) with (String "}" (String "}" rest)) in Hstart.
    cbn [startswith] in Hstart.
    cbn [brace_free] in Hkey. unfold is_close in Hkey.
    destruct (Ascii.eqb_spec a "}") as [->|]; [|done].
    by rewrite andb_false_r in Hkey.
  - rewrite !app_cons in Hstart. cbn [startswith] in Hstart.
    cbn [brace_free] in Hkey, Hk.
    apply andb_true_iff in Hkey as [_ Hkey]. apply andb_true_iff in Hk as [_ Hk].
    destruct (Ascii.eqb_spec a b) as [->|]; [|done].
    f_equal. by apply IH.
Qed.

Lemma key_ok_brace_free (key : string) : key_ok key = true -> brace_free key = true.
Proof. by destruct key. Qed.

Lemma placeholder_mismatch (key k rest : string) :
  key_ok key = true -> key_ok k = true -> key <> k ->
  startswith (placeholder key) (placeholder k +:+ rest) = false.
Proof.
  intros Hkey%key_ok_brace_free Hk%key_ok_brace_free Hne.
  destruct (startswith (placeholder key) (placeholder k +:+ rest)) eqn:Hstart; [|done].
  exfalso. apply Hne. apply (key_closed_inj key k rest Hkey Hk).
  rewrite !placeholder_cons, !app_cons in Hstart. cbn [startswith] in Hstart.
  rewrite Ascii.eqb_refl in Hstart. by rewrite app_assoc_str in Hstart.
Qed.

Lemma brace_free_closed_safe (k : string) :
  brace_free k = true -> safe_text (k +:+ "}}") = true.
Proof.
  induction k as [|c k IH]; intros Hk; [done|].
  cbn [brace_free] in Hk.
  apply andb_true_iff in Hk as [[Hc _]%andb_true_iff Hk].
  rewrite app_cons. cbn [safe_text]. rewrite (IH Hk).
  by destruct (is_open c).
Qed.

(** What is left of a token after its first brace is safe text. *)
Lemma token_tail_safe (k : string) :
  key_ok k = true -> safe_text (String "{" (k +:+ "}}")) = true.
Proof.
  intros Hk. destruct k as [|c k]; [done|]. simpl in Hk.
  pose proof (brace_free_closed_safe (String c k) Hk) as Hsafe.
  rewrite app_cons in Hsafe |- *.
  cbn [safe_text] in Hsafe |- *.
  cbn [brace_free] in Hk. apply andb_true_iff in Hk as [[Hc _]%andb_true_iff _].
  apply negb_true_iff in Hc. rewrite Hc in Hsafe |- *.
  by rewrite andb_false_r.
Qed.

Lemma replace_scan_token_other (key value k rest : string) :
  key_ok key = true -> key_ok k = true -> key <> k ->
  replace_scan (placeholder key) value 0 (placeholder k +:+ rest)
  = placeholder k +:+ replace_scan (placeholder key) value 0 rest.
Proof.
  intros Hkey Hk Hne.
  pose proof (placeholder_mismatch key k rest Hkey Hk Hne) as Hno.
  rewrite (placeholder_cons k) in Hno |- *.
  rewrite (app_cons "{"%char (String "{" (k +:+ "}}")) rest) in Hno |- *.
  rewrite (app_cons "{"%char (String "{" (k +:+ "}}"))
             (replace_scan (placeholder key) value 0 rest)).
  rewrite (replace_scan_nomatch _ _ _ _ Hno). f_equal.
  apply replace_scan_safe_prefix, token_tail_safe, Hk.
Qed.

Lemma str_in_token_other (key k rest : string) :
  key_ok key = true -> key_ok k = true -> key <> k ->
  str_in (placeholder key) (placeholder k +:+ rest) = str_in (placeholder key) rest.
Proof.
  intros Hkey Hk Hne.
  pose proof (placeholder_mismatch key k rest Hkey Hk Hne) as Hno.
  rewrite (placeholder_cons k) in Hno |- *.
  rewrite (app_cons "{"%char (String "{" (k +:+ "}}")) rest) in Hno |- *.
  cbn [str_in]. rewrite Hno, orb_false_l.
  apply str_in_safe_prefix, token_tail_safe, Hk.
Qed.

Lemma replace_scan_token_same (key value rest : string) :
  replace_scan (placeholder key) value 0 (placeholder key +:+ rest)
  = value +:+ replace_scan (placeholder key) value 0 rest.
Proof. rewrite placeholder_cons. apply replace_scan_match. Qed.

Lemma replace_placeholder (key value s : string) :
  replace (placeholder key) value s = replace_scan (placeholder key) value 0 s.
Proof. reflexivity. Qed.

(** One replacement on a well-formed template replaces the tokens of its
    key and nothing else. *)
Lemma replace_render (key value : string) (segs : list segment) :
  key_ok key = true ->
  Forall (fun seg => segment_ok seg = true) segs ->
  replace (placeholder key) value (render segs)
  = render (subst_token key value <$> segs).
Proof.
  intros Hkey Hsegs. rewrite replace_placeholder.
  induction Hsegs as [|seg segs Hseg _ IH]; [done|].
  csimpl. rewrite <- IH. destruct seg as [text | k]; simpl in Hseg |- *.
  - by apply replace_scan_safe_prefix.
  - destruct (String.eqb_spec key k) as [<- | Hne]; simpl.
    + apply replace_scan_token_same.
    + by apply replace_scan_token_other.
Qed.

Lemma subst_token_ok (key value : string) (segs : list segment) :
  safe_text value = true ->
  Forall (fun seg => segment_ok seg = true) segs ->
  Forall (fun seg => segment_ok seg = true) (subst_token key value <$> segs).
Proof.
  intros Hv Hsegs. apply Forall_fmap. eapply Forall_impl; [exact Hsegs|].
  intros [text | k] Hok; simpl; [done|]. by destruct (String.eqb key k).
Qed.

Lemma fill_segment_cons (key value : string) (order : dict string) (seg : segment) :
  fill_segment ((key, value) :: order) seg = fill_segment order (subst_token key value seg).
Proof.
  destruct seg as [text | k]; [done|]. simpl. by destruct (String.eqb key k).
Qed.

(** Replacements performed in the order of a list, on a well-formed
    template and with safe values, fill every token whose key is in the
    list. *)
Lemma apply_replacements_render (order : dict string) :
  forall segs : list segment,
    Forall (fun item => key_ok item.1 = true /\ safe_text item.2 = true) order ->
    Forall (fun seg => segment_ok seg = true) segs ->
    apply_replacements order (render segs) = render (fill_segment order <$> segs).
Proof.
  induction order as [|[key value] order IH]; intros segs Horder Hsegs.
  - simpl. f_equal. induction segs as [|[|] segs IHs]; [done|..];
      csimpl; f_equal; apply IHs; by inversion Hsegs.
  - apply Forall_cons in Horder as [[Hkey Hvalue] Horder]. simpl in Hkey, Hvalue.
    unfold apply_replacements in *. cbn [fold_left fst snd].
    rewrite replace_render by done.
    rewrite IH by (by try apply subst_token_ok).
    rewrite <- list_fmap_compose. f_equal. apply list_fmap_ext.
    intros _ seg _. simpl. by rewrite fill_segment_cons.
Qed.

Lemma str_in_placeholder_empty (key : string) : str_in (placeholder key) "" = false.
Proof. reflexivity. Qed.

(** A token occurs in a well-formed template only where the template
    has it. *)
Lemma str_in_render_none (key : string) (segs : list segment) :
  key_ok key = true ->
  Forall (fun seg => segment_ok seg = true) segs ->
  Tok key ∉ segs ->
  str_in (placeholder key) (render segs) = false.
Proof.
  intros Hkey Hsegs. induction Hsegs as [|seg segs Hseg _ IH]; intros Hnot.
  - apply str_in_placeholder_empty.
  - apply not_elem_of_cons in Hnot as [Hne Hnot]. specialize (IH Hnot).
    csimpl. rewrite <- IH. destruct seg as [text | k]; simpl in Hseg |- *.
    + by apply str_in_safe_prefix.
    + apply str_in_token_other; [done..|]. intros ->. by apply Hne.
Qed.

Lemma dict_get_Some_elem {V : Type} (d : dict V) (k : string) (v : V) :
  dict_get k d = Some v -> (k, v) ∈ d.
Proof.
  induction d as [|[k' w] d IH]; simpl; [done|].
  destruct (String.eqb_spec k' k) as [->|_].
  - intros [= ->]. by left.
  - intros H. right. by apply IH.
Qed.

Lemma dict_get_elem_Some {V : Type} (d : dict V) (k : string) (v : V) :
  NoDup d.*1 -> (k, v) ∈ d -> dict_get k d = Some v.
Proof.
  induction d as [|[k' w] d IH]; simpl; intros Hnd Hin.
  - by apply elem_of_nil in Hin.
  - apply NoDup_cons in Hnd as [Hk' Hnd].
    apply elem_of_cons in Hin as [Heq | Hin].
    + simplify_eq. by rewrite String.eqb_refl.
    + destruct (String.eqb_spec k' k) as [->|_]; [|by apply IH].
      exfalso. apply Hk'. apply list_elem_of_fmap. by exists (k, v).
Qed.

Lemma dict_get_None_keys {V : Type} (d : dict V) (k : string) :
  dict_get k d = None -> k ∉ d.*1.
Proof.
  induction d as [|[k' w] d IH]; simpl; intros Hget; [apply not_elem_of_nil|].
  destruct (String.eqb_spec k' k) as [->|Hne]; [done|].
  apply not_elem_of_cons. split; [done | by apply IH].
Qed.

(** A dict read by key does not depend on the order of its items. *)
Lemma dict_get_perm {V : Type} (d d' : dict V) (k : string) :
  NoDup d.*1 -> d ≡ₚ d' -> dict_get k d = dict_get k d'.
Proof.
  intros Hnd Hperm.
  assert (NoDup d'.*1) as Hnd' by (by rewrite <- Hperm).
  apply option_eq. intros v. split; intros Hget%dict_get_Some_elem.
  - apply dict_get_elem_Some; [done|]. by rewrite <- Hperm.
  - apply dict_get_elem_Some; [done|]. by rewrite Hperm.
Qed.

Lemma fill_segment_ok (order : dict string) (segs : list segment) :
  Forall (fun item => safe_text item.2 = true) order ->
  Forall (fun seg => segment_ok seg = true) segs ->
  Forall (fun seg => segment_ok seg = true) (fill_segment order <$> segs).
Proof.
  intros Horder Hsegs. apply Forall_fmap. eapply Forall_impl; [exact Hsegs|].
  intros [text | k] Hok; simpl; [done|].
  destruct (dict_get k order) as [v|] eqn:Hget; [|done]. simpl.
  apply dict_get_Some_elem in Hget.
  by apply (proj1 (Forall_forall _ _) Horder (k, v)).
Qed.

Lemma fill_segment_no_token (order : dict string) (segs : list segment) (key : string) :
  key ∈ order.*1 -> Tok key ∉ fill_segment order <$> segs.
Proof.
  intros Hkey ([text | k] & Heq & _)%list_elem_of_fmap; simpl in Heq; [done|].
  destruct (dict_get k order) as [v|] eqn:Hget; [done|].
  simplify_eq. by apply dict_get_None_keys in Hget.
Qed.

Lemma known_keys_ok : Forall (fun key => key_ok key = true) known_keys.
Proof. repeat constructor. Qed.

Lemma known_keys_NoDup : NoDup known_keys.
Proof. apply (bool_decide_unpack _). by vm_compute. Qed.

Lemma replacements_keys (env : string -> option string)
    (summary projects experience skills_table_html : string) :
  (replacements env summary projects experience skills_table_html).*1 = known_keys.
Proof. reflexivity. Qed.

(** C6, as the code has it. Take a template made of tokens whose keys are
    not empty and hold no brace, and of text in which two opening braces
    never follow each other and which does not end in an opening brace;
    take inserted values (the seven identity values, the stripped summary,
    the stripped projects and experience with their newlines converted,
    the skills table) that are text of that kind too. Then
    [fill_resume_template] puts the value of its key in the place of every
    token of a known key and leaves the rest of the template as it is; no
    token of a known key occurs in the result; and the eleven replacements
    performed in any order give the same result. *)
Theorem fill_total_on_safe_values (env : string -> option string)
    (segs : list segment) (summary projects experience skills_table_html : string) :
  Forall (fun seg => segment_ok seg = true) segs ->
  Forall (fun item => safe_text item.2 = true)
         (replacements env summary projects experience skills_table_html) ->
  let order0 := replacements env summary projects experience skills_table_html in
  let out := fill_resume_template env (render segs)
                                  summary projects experience skills_table_html in
  out = render (fill_segment order0 <$> segs) /\
  (forall key, key ∈ known_keys -> str_in (placeholder key) out = false) /\
  (forall order, order ≡ₚ order0 -> apply_replacements order (render segs) = out).
Proof.
  intros Hsegs Hvalues order0 out.
  assert (forall order, order ≡ₚ order0 ->
            apply_replacements order (render segs)
            = render (fill_segment order0 <$> segs)) as Hany.
  { intros order Hperm.
    rewrite apply_replacements_render; [|
      rewrite Hperm; apply Forall_and; split; [|done];
      apply (Forall_fmap fst (fun key => key_ok key = true));
      apply known_keys_ok | done].
    f_equal. apply list_fmap_ext. intros _ [text | k] _; [done|]. simpl.
    rewrite (dict_get_perm order order0 k); [done | | done].
    rewrite Hperm. apply known_keys_NoDup. }
  assert (out = render (fill_segment order0 <$> segs)) as Hout.
  { subst out. rewrite fill_resume_template_replacements. by apply Hany. }
  split; [done|]. split.
  - intros key Hkey. rewrite Hout.
    apply str_in_render_none.
    + by apply (proj1 (Forall_forall _ _) known_keys_ok).
    + by apply fill_segment_ok.
    + by apply fill_segment_no_token.
  - intros order Hperm. rewrite Hout. by apply Hany.
Qed.

Lemma fill_total_on_safe_values_witness :
  let order0 := replacements ada_env (" Builds things." +:+ nl) ("One" +:+ nl +:+ "Two")
                             "" "<table></table>" in
  let out := fill_resume_template ada_env (render sample_template)
               (" Builds things." +:+ nl) ("One" +:+ nl +:+ "Two") "" "<table></table>" in
  out = render (fill_segment order0 <$> sample_template) /\
  (forall key, key ∈ known_keys -> str_in (placeholder key) out = false) /\
  (forall order, order ≡ₚ order0 ->
                 apply_replacements order (render sample_template) = out).
Proof.
  apply (fill_total_on_safe_values ada_env sample_template
           (" Builds things." +:+ nl) ("One" +:+ nl +:+ "Two") "" "<table></table>").
  - apply (bool_decide_unpack _). vm_compute. exact I.
  - apply (bool_decide_unpack _). vm_compute. exact I.
Defined.

(** A value that holds a token. The projects prose is inserted after the
    summary: a token of [SUMMARY] in it stays in the result. Performed in
    the reverse order, the same replacements fill it. *)
Lemma inserted_token_remains :
  fill_resume_template no_env "<p>{{PROJECTS}}</p>" "Hello" "See {{SUMMARY}}" "" ""
  = "<p>See {{SUMMARY}}</p>" /\
  "SUMMARY" ∈ known_keys /\
  str_in (placeholder "SUMMARY")
         (fill_resume_template no_env "<p>{{PROJECTS}}</p>" "Hello" "See {{SUMMARY}}" "" "")
  = true /\
  reverse (replacements no_env "Hello" "See {{SUMMARY}}" "" "")
    ≡ₚ replacements no_env "Hello" "See {{SUMMARY}}" "" "" /\
  apply_replacements (reverse (replacements no_env "Hello" "See {{SUMMARY}}" "" ""))
                     "<p>{{PROJECTS}}</p>" = "<p>See Hello</p>" /\
  apply_replacements (reverse (replacements no_env "Hello" "See {{SUMMARY}}" "" ""))
                     "<p>{{PROJECTS}}</p>"
  <> fill_resume_template no_env "<p>{{PROJECTS}}</p>" "Hello" "See {{SUMMARY}}" "" "".
Proof.
  split; [by vm_compute|]. split; [apply (bool_decide_unpack _); by vm_compute|].
  split; [by vm_compute|]. split; [apply reverse_Permutation|].
  split; by vm_compute.
Qed.

Lemma str_in_nl_cons (c : ascii) (s : string) :
  str_in nl (String c s) = Ascii.eqb "010" c || str_in nl s.
Proof. unfold nl. cbn [str_in startswith]. by destruct (Ascii.eqb "010" c). Qed.

(** [replace("\n", "<br>")] leaves no newline. *)
Lemma replace_nl_no_newline (s : string) : str_in nl (replace nl "<br>" s) = false.
Proof.
  change (replace nl "<br>" s) with (replace_scan nl "<br>" 0 s).
  induction s as [|c s IH]; [done|].
  cbn [replace_scan]. unfold nl at 2. cbn [startswith].
  destruct (Ascii.eqb "010" c) eqn:Hc.
  - change (String.length nl - 1) with 0.
    change ("<br>" +:+ replace_scan nl "<br>" 0 s)
      with (String "<" (String "b" (String "r" (String ">" (replace_scan nl "<br>" 0 s))))).
    by rewrite !str_in_nl_cons, IH.
  - by rewrite str_in_nl_cons, Hc, IH.
Qed.

(** C5 at work. What is inserted for [PROJECTS] and for [EXPERIENCE] holds
    no newline, whatever the prose is. What is inserted for [SUMMARY] is
    the stripped summary as it is: with the template [<p>{{SUMMARY}}</p>]
    and a summary of two lines, the newline between the lines is in the
    result, where the same prose as projects gives [<br>]. *)
Theorem summary_newline_not_converted :
  (forall prose, str_in nl (replace nl "<br>" (strip prose)) = false) /\
  fill_resume_template no_env "<p>{{SUMMARY}}</p>"
                       ("First line" +:+ nl +:+ "Second line") "" "" ""
  = "<p>First line" +:+ nl +:+ "Second line</p>" /\
  str_in nl (fill_resume_template no_env "<p>{{SUMMARY}}</p>"
                                  ("First line" +:+ nl +:+ "Second line") "" "" "")
  = true /\
  fill_resume_template no_env "<p>{{PROJECTS}}</p>"
                       "" ("First line" +:+ nl +:+ "Second line") "" ""
  = "<p>First line<br>Second line</p>".
Proof.
  split; [intros prose; apply replace_nl_no_newline|].
  repeat split; by vm_compute.
Qed.

End Template.


(** * Further properties of the code *)

(** ** Normalization *)

Section Normalize.

Lemma isspace_lower_char (c : ascii) : isspace (lower_char c) = isspace c.
Proof. destruct c as [[] [] [] [] [] [] [] []]; reflexivity. Qed.

Lemma lower_char_idemp (c : ascii) : lower_char (lower_char c) = lower_char c.
Proof. destruct c as [[] [] [] [] [] [] [] []]; reflexivity. Qed.

Lemma lower_idemp (s : string) : lower (lower s) = lower s.
Proof. induction s as [|c s IH]; [done|]. simpl. by rewrite lower_char_idemp, IH. Qed.

Lemma lower_lstrip (s : string) : lower (lstrip s) = lstrip (lower s).
Proof.
  induction s as [|c s IH]; [done|]. simpl. rewrite isspace_lower_char.
  by destruct (isspace c).
Qed.

Lemma lower_rstrip (s : string) : lower (rstrip s) = rstrip (lower s).
Proof.
  induction s as [|c s IH]; [done|]. simpl. rewrite <- IH, isspace_lower_char.
  destruct (rstrip s); simpl; [by destruct (isspace c) | done].
Qed.

Lemma lower_strip (s : string) : lower (strip s) = strip (lower s).
Proof. unfold strip. by rewrite lower_rstrip, lower_lstrip. Qed.

Lemma lstrip_no_lead (s : string) : no_lead (lstrip s).
Proof.
  induction s as [|c s IH]; [done|]. simpl. by destruct (isspace c) eqn:Hc.
Qed.

Lemma lstrip_fixed (s : string) : no_lead s -> lstrip s = s.
Proof. destruct s as [|c s]; [done|]. simpl. by intros ->. Qed.

Lemma rstrip_no_lead (s : string) : no_lead s -> no_lead (rstrip s).
Proof.
  destruct s as [|c s]; [done|]. simpl. intros Hc.
  destruct (rstrip s); [by rewrite Hc | done].
Qed.

Lemma rstrip_idemp (s : string) : rstrip (rstrip s) = rstrip s.
Proof.
  induction s as [|c s IH]; [done|]. simpl.
  destruct (rstrip s) as [|a r] eqn:Hr.
  - destruct (isspace c) eqn:Hc; [done|]. simpl. by rewrite Hc.
  - change (rstrip (String c (String a r))) with
      (match rstrip (String a r) with
       | EmptyString => if isspace c then EmptyString else String c EmptyString
       | r' => String c r'
       end).
    by rewrite IH.
Qed.

Lemma strip_idemp (s : string) : strip (strip s) = strip s.
Proof.
  unfold strip.
  rewrite (lstrip_fixed (rstrip (lstrip s))) by apply rstrip_no_lead, lstrip_no_lead.
  apply rstrip_idemp.
Qed.

(** X1: normalizing twice is normalizing once; a normalized string is left
    as it is by [lower] and by [strip]. *)
Theorem normalize_skill_idempotent (s : string) :
  normalize_skill (normalize_skill s) = normalize_skill s /\
  lower (normalize_skill s) = normalize_skill s /\
  strip (normalize_skill s) = normalize_skill s.
Proof.
  unfold normalize_skill. split; [|split].
  - by rewrite lower_strip, lower_idemp, strip_idemp.
  - by rewrite lower_strip, lower_idemp.
  - apply strip_idemp.
Qed.

End Normalize.

(** ** The skill filter on ill-formed and on unusual profiles *)

Section FilterEdges.

Lemma build_relevant_skills_terms (master : dict (list string)) (job_profile : json) :
  build_relevant_skills master job_profile
  = match job_terms job_profile with
    | Ok terms => Ok (filter_catalog terms master)
    | Raise e => Raise e
    end.
Proof. unfold build_relevant_skills. by destruct (job_terms job_profile). Qed.

Lemma filter_raises_on_non_record_aux (master : dict (list string)) (v : json) :
  is_dict v = false -> build_relevant_skills master v = Raise AttributeError.
Proof. by destruct v. Qed.

(** X2: a job profile that is not a JSON object (a list, a string, a
    number, a boolean, null) makes the filter raise [AttributeError],
    whatever the catalog is. *)
Theorem filter_raises_on_non_record (master : dict (list string)) (job_profile : json) :
  is_dict job_profile = false ->
  build_relevant_skills master job_profile = Raise AttributeError.
Proof. apply filter_raises_on_non_record_aux. Qed.

Lemma filter_raises_on_non_record_witness :
  build_relevant_skills databases_catalog (JList [JStr "sql"]) = Raise AttributeError.
Proof.
  apply (filter_raises_on_non_record databases_catalog (JList [JStr "sql"])).
  reflexivity.
Defined.

Lemma key_terms_not_iterable (d : list (string * json)) (key : string) (v : json) :
  dict_get key d = Some v -> not_iterable v = true ->
  key_terms (JDict d) key = Raise TypeError.
Proof. intros Hget Hv. unfold key_terms. simpl. rewrite Hget. by destruct v. Qed.

Lemma traverse_normalize_bad (l : list json) :
  existsb (fun x => negb (is_str x)) l = true ->
  traverse normalize_skill_dyn l = Raise AttributeError.
Proof.
  induction l as [|x l IH]; [done|]. simpl. intros Hbad.
  destruct x; try done. simpl in Hbad. csimpl. by rewrite IH.
Qed.

Lemma key_terms_bad_element (d : list (string * json)) (key : string) (l : list json) :
  dict_get key d = Some (JList l) ->
  existsb (fun x => negb (is_str x)) l = true ->
  key_terms (JDict d) key = Raise AttributeError.
Proof.
  intros Hget Hbad. unfold key_terms. simpl. rewrite Hget. simpl.
  by apply traverse_normalize_bad.
Qed.

(** When one consulted key raises and the other three hold lists of
    strings, the term set raises the same exception. *)
Lemma job_terms_one_bad (d : list (string * json)) (key : string) (e : exn) :
  key ∈ term_keys ->
  key_terms (JDict d) key = Raise e ->
  (forall k, k ∈ term_keys -> k <> key -> exists xs, field_is (JDict d) k xs) ->
  job_terms (JDict d) = Raise e.
Proof.
  intros Hkey Hbad Hothers.
  assert (forall k, k ∈ term_keys -> k <> key ->
                    exists ts, key_terms (JDict d) k = Ok ts) as Hok.
  { intros k Hk Hne. destruct (Hothers k Hk Hne) as [xs Hxs].
    eexists. by apply key_terms_field. }
  unfold job_terms. unfold term_keys in *. cbn [traverse].
  repeat (apply elem_of_cons in Hkey as [-> | Hkey];
          [ rewrite Hbad; csimpl;
            repeat match goal with
                   | |- context [key_terms (JDict d) ?k] =>
                       let Hk := fresh in
                       destruct (Hok k) as [? Hk];
                       [ set_solver | done | rewrite Hk; csimpl ]
                   end; done
          | ]).
  by apply elem_of_nil in Hkey.
Qed.

(** X3: when one of the four consulted fields holds null, a boolean or a
    number, and the other three hold lists of strings, the filter raises
    [TypeError]. *)
Theorem filter_raises_on_non_iterable_field (master : dict (list string))
    (d : list (string * json)) (key : string) (v : json) :
  key ∈ term_keys ->
  dict_get key d = Some v ->
  not_iterable v = true ->
  (forall k, k ∈ term_keys -> k <> key -> exists xs, field_is (JDict d) k xs) ->
  build_relevant_skills master (JDict d) = Raise TypeError.
Proof.
  intros Hkey Hget Hv Hothers. rewrite build_relevant_skills_terms.
  rewrite (job_terms_one_bad d key TypeError); [done | done | | done].
  by apply (key_terms_not_iterable d key v).
Qed.

Lemma filter_raises_on_non_iterable_field_witness :
  build_relevant_skills databases_catalog
    (JDict [("required_skills", JList [JStr "sql"]); ("tools", JNull)])
  = Raise TypeError.
Proof.
  apply (filter_raises_on_non_iterable_field databases_catalog
           [("required_skills", JList [JStr "sql"]); ("tools", JNull)] "tools" JNull).
  - apply (bool_decide_unpack _). vm_compute. exact I.
  - reflexivity.
  - reflexivity.
  - intros k Hk Hne. unfold term_keys in Hk.
    repeat (apply elem_of_cons in Hk as [-> | Hk]).
    + exists ["sql"]. eexists. split; reflexivity.
    + exists []. eexists. split; reflexivity.
    + exfalso. apply Hne. reflexivity.
    + exists []. eexists. split; reflexivity.
    + exfalso. apply elem_of_nil in Hk. exact Hk.
Defined.

(** X4: when one of the four consulted fields holds a list with an element
    that is not a string, and the other three hold lists of strings, the
    filter raises [AttributeError]. *)
Theorem filter_raises_on_non_string_term (master : dict (list string))
    (d : list (string * json)) (key : string) (l : list json) :
  key ∈ term_keys ->
  dict_get key d = Some (JList l) ->
  existsb (fun x => negb (is_str x)) l = true ->
  (forall k, k ∈ term_keys -> k <> key -> exists xs, field_is (JDict d) k xs) ->
  build_relevant_skills master (JDict d) = Raise AttributeError.
Proof.
  intros Hkey Hget Hbad Hothers. rewrite build_relevant_skills_terms.
  rewrite (job_terms_one_bad d key AttributeError); [done | done | | done].
  by apply (key_terms_bad_element d key l).
Qed.

Lemma filter_raises_on_non_string_term_witness :
  build_relevant_skills databases_catalog
    (JDict [("required_skills", JList [JStr "sql"; JInt 5])])
  = Raise AttributeError.
Proof.
  apply (filter_raises_on_non_string_term databases_catalog
           [("required_skills", JList [JStr "sql"; JInt 5])] "required_skills"
           [JStr "sql"; JInt 5]).
  - apply (bool_decide_unpack _). vm_compute. exact I.
  - reflexivity.
  - reflexivity.
  - intros k Hk Hne. unfold term_keys in Hk.
    repeat (apply elem_of_cons in Hk as [-> | Hk]).
    + exfalso. apply Hne. reflexivity.
    + exists []. eexists. split; reflexivity.
    + exists []. eexists. split; reflexivity.
    + exists []. eexists. split; reflexivity.
    + exfalso. apply elem_of_nil in Hk. exact Hk.
Defined.

(** The terms of every consulted key are in the term set. *)
Lemma job_terms_key (job_profile : json) (terms : gset string) (key : string) :
  job_terms job_profile = Ok terms ->
  key ∈ term_keys ->
  exists ts, key_terms job_profile key = Ok ts /\ forall t, t ∈ ts -> t ∈ terms.
Proof.
  unfold job_terms, term_keys. cbn [traverse]. intros Hterms Hkey.
  destruct (key_terms job_profile "required_skills") as [t1|] eqn:H1; [|done].
  destruct (key_terms job_profile "preferred_skills") as [t2|] eqn:H2; [|done].
  destruct (key_terms job_profile "tools") as [t3|] eqn:H3; [|done].
  destruct (key_terms job_profile "keywords") as [t4|] eqn:H4; [|done].
  csimpl in Hterms. injection Hterms as <-.
  repeat (apply elem_of_cons in Hkey as [-> | Hkey]);
    [ exists t1 | exists t2 | exists t3 | exists t4 | by apply elem_of_nil in Hkey ];
    (split; [done|]); intros t Ht; apply elem_of_list_to_set;
    rewrite app_nil_r, !elem_of_app; tauto.
Qed.

Lemma traverse_normalize_chars (s : string) :
  traverse normalize_skill_dyn (JStr <$> chars s) = Ok (normalize_skill <$> chars s).
Proof. apply traverse_normalize. Qed.

Lemma keep_skill_by_term (terms : gset string) (term skill : string) :
  term ∈ terms ->
  is_substring term (normalize_skill skill) ->
  keep_skill terms skill = true.
Proof. intros Hin Hsub. apply keep_skill_spec. left. exists term. tauto. Qed.

(** X5: a consulted field that holds a string instead of a list is read
    character by character: each character of the string, normalized, is a
    job term, so every catalog skill whose normalized form contains that
    character is kept. *)
Theorem string_field_is_read_by_character (master : dict (list string))
    (d : list (string * json)) (key s : string) (terms : gset string) :
  key ∈ term_keys ->
  dict_get key d = Some (JStr s) ->
  job_terms (JDict d) = Ok terms ->
  NoDup master.*1 ->
  (forall ch, ch ∈ chars s -> normalize_skill ch ∈ terms) /\
  exists out,
    build_relevant_skills master (JDict d) = Ok out /\
    forall ch category skill,
      ch ∈ chars s ->
      in_catalog master category skill ->
      is_substring (normalize_skill ch) (normalize_skill skill) ->
      in_catalog out category skill.
Proof.
  intros Hkey Hget Hterms Hnd.
  assert (forall ch, ch ∈ chars s -> normalize_skill ch ∈ terms) as Hch.
  { intros ch Hin.
    destruct (job_terms_key _ _ _ Hterms Hkey) as (ts & Hts & Hsub).
    apply Hsub. unfold key_terms in Hts. simpl in Hts. rewrite Hget in Hts.
    simpl in Hts. rewrite traverse_normalize_chars in Hts. injection Hts as <-.
    apply list_elem_of_fmap. by exists ch. }
  split; [done|].
  rewrite build_relevant_skills_terms, Hterms. eexists. split; [done|].
  intros ch category skill Hin Hcat Hsub.
  rewrite filter_catalog_restrict by done.
  apply in_restrict_catalog. split; [done|].
  apply (keep_skill_by_term terms (normalize_skill ch)); [by apply Hch | done].
Qed.

Lemma string_field_is_read_by_character_witness :
  (forall ch, ch ∈ chars "C#" -> normalize_skill ch ∈ ({["c"; "#"]} : gset string)) /\
  exists out,
    build_relevant_skills [("Languages", ["Scala"; "Go"])]
                          (JDict [("required_skills", JStr "C#")]) = Ok out /\
    forall ch category skill,
      ch ∈ chars "C#" ->
      in_catalog [("Languages", ["Scala"; "Go"])] category skill ->
      is_substring (normalize_skill ch) (normalize_skill skill) ->
      in_catalog out category skill.
Proof.
  apply (string_field_is_read_by_character [("Languages", ["Scala"; "Go"])]
           [("required_skills", JStr "C#")] "required_skills" "C#" {["c"; "#"]}).
  - apply (bool_decide_unpack _). vm_compute. exact I.
  - reflexivity.
  - vm_compute. reflexivity.
  - apply (bool_decide_unpack _). vm_compute. exact I.
Defined.

Lemma str_in_empty (s : string) : str_in "" s = true.
Proof. by destruct s. Qed.

Lemma list_filter_all {A : Type} (f : A -> bool) (l : list A) :
  (forall x, f x = true) -> List.filter f l = l.
Proof.
  intros Hall. induction l as [|x l IH]; [done|]. simpl. by rewrite Hall, IH.
Qed.

Lemma restrict_catalog_all (keep : string -> bool) (master : dict (list string)) :
  (forall skill, keep skill = true) ->
  restrict_catalog keep master = List.filter has_skills master.
Proof.
  intros Hall. induction master as [|[c skills] master IH]; [done|].
  rewrite restrict_catalog_cons, (list_filter_all keep skills Hall), IH.
  by destruct skills.
Qed.

(** X6: a job term that is empty once normalized (an empty or all-blank
    string in one of the consulted fields) is a substring of everything:
    the filter then keeps the whole catalog, less the categories that list
    no skill. *)
Theorem blank_term_keeps_whole_catalog (master : dict (list string))
    (job_profile : json) (terms : gset string) :
  job_terms job_profile = Ok terms ->
  "" ∈ terms ->
  NoDup master.*1 ->
  build_relevant_skills master job_profile = Ok (List.filter has_skills master).
Proof.
  intros Hterms Hblank Hnd.
  rewrite build_relevant_skills_terms, Hterms, filter_catalog_restrict by done.
  f_equal. apply restrict_catalog_all. intros skill.
  apply (keep_skill_by_term terms ""); [done|]. apply str_in_spec, str_in_empty.
Qed.

Lemma blank_term_keeps_whole_catalog_witness :
  build_relevant_skills [("Legacy", ["COBOL"; "Fortran"]); ("None", [])]
                        (JDict [("keywords", JList [JStr "  "])])
  = Ok (List.filter has_skills [("Legacy", ["COBOL"; "Fortran"]); ("None", [])]).
Proof.
  apply (blank_term_keeps_whole_catalog [("Legacy", ["COBOL"; "Fortran"]); ("None", [])]
           (JDict [("keywords", JList [JStr "  "])]) {[""]}).
  - vm_compute. reflexivity.
  - apply (bool_decide_unpack _). vm_compute. exact I.
  - apply (bool_decide_unpack _). vm_compute. exact I.
Defined.

(** X7: the filter is monotone in the job terms: with a term set that
    contains another one, every skill kept with the smaller set is kept
    with the larger one. *)
Theorem more_terms_keep_more (master : dict (list string))
    (profile1 profile2 : json) (terms1 terms2 : gset string) :
  job_terms profile1 = Ok terms1 ->
  job_terms profile2 = Ok terms2 ->
  terms1 ⊆ terms2 ->
  NoDup master.*1 ->
  exists out1 out2,
    build_relevant_skills master profile1 = Ok out1 /\
    build_relevant_skills master profile2 = Ok out2 /\
    forall category skill,
      in_catalog out1 category skill -> in_catalog out2 category skill.
Proof.
  intros H1 H2 Hsub Hnd. rewrite !build_relevant_skills_terms, H1, H2.
  do 2 eexists. split; [done|]. split; [done|].
  intros category skill. rewrite !filter_catalog_restrict by done.
  rewrite !in_restrict_catalog, !keep_skill_spec.
  intros [Hin [(term & Hterm & Hm) | Hkeep]]; (split; [done|]); [left | by right].
  exists term. split; [by apply Hsub | done].
Qed.

Lemma more_terms_keep_more_witness :
  exists out1 out2,
    build_relevant_skills [("Languages", ["Python"; "Rust"; "SQL"])] sql_profile = Ok out1 /\
    build_relevant_skills [("Languages", ["Python"; "Rust"; "SQL"])]
      (JDict [("required_skills", JList [JStr "sql"]); ("tools", JList [JStr "Rust"])])
    = Ok out2 /\
    forall category skill,
      in_catalog out1 category skill -> in_catalog out2 category skill.
Proof.
  apply (more_terms_keep_more [("Languages", ["Python"; "Rust"; "SQL"])] sql_profile
           (JDict [("required_skills", JList [JStr "sql"]); ("tools", JList [JStr "Rust"])])
           {["sql"]} {["sql"; "rust"]}).
  - vm_compute. reflexivity.
  - vm_compute. reflexivity.
  - apply (bool_decide_unpack _). vm_compute. exact I.
  - apply (bool_decide_unpack _). vm_compute. exact I.
Defined.

(** X8: the filter sees the job profile only through the set of its
    normalized terms: two profiles whose consulted fields give the same
    normalized strings, in whatever field, order, case, spacing or number
    of copies, give the same result. *)
Theorem filter_depends_on_term_set_only (master : dict (list string))
    (profile1 profile2 : json) (req1 pref1 tls1 kws1 req2 pref2 tls2 kws2 : list string) :
  field_is profile1 "required_skills" req1 ->
  field_is profile1 "preferred_skills" pref1 ->
  field_is profile1 "tools" tls1 ->
  field_is profile1 "keywords" kws1 ->
  field_is profile2 "required_skills" req2 ->
  field_is profile2 "preferred_skills" pref2 ->
  field_is profile2 "tools" tls2 ->
  field_is profile2 "keywords" kws2 ->
  (forall t, t ∈ normalize_skill <$> (req1 ++ pref1 ++ tls1 ++ kws1) <->
             t ∈ normalize_skill <$> (req2 ++ pref2 ++ tls2 ++ kws2)) ->
  build_relevant_skills master profile1 = build_relevant_skills master profile2.
Proof.
  intros A1 A2 A3 A4 B1 B2 B3 B4 Hsame.
  rewrite !build_relevant_skills_terms.
  rewrite (job_terms_fields _ _ _ _ _ A1 A2 A3 A4), (job_terms_fields _ _ _ _ _ B1 B2 B3 B4).
  do 2 f_equal. apply set_eq. intros t. by rewrite !elem_of_list_to_set.
Qed.

Lemma filter_depends_on_term_set_only_witness :
  build_relevant_skills databases_catalog sql_profile
  = build_relevant_skills databases_catalog
      (JDict [("keywords", JList [JStr " SQL "; JStr "sql"])]).
Proof.
  apply (filter_depends_on_term_set_only databases_catalog sql_profile
           (JDict [("keywords", JList [JStr " SQL "; JStr "sql"])])
           ["sql"] [] [] [] [] [] [] [" SQL "; "sql"]).
  - eexists. split; reflexivity.
  - eexists. split; reflexivity.
  - eexists. split; reflexivity.
  - eexists. split; reflexivity.
  - eexists. split; reflexivity.
  - eexists. split; reflexivity.
  - eexists. split; reflexivity.
  - eexists. split; reflexivity.
  - intros t. vm_compute. split.
    + intros Ht. apply elem_of_cons in Ht as [-> | Ht].
      * apply list_elem_of_here.
      * exfalso. apply elem_of_nil in Ht. exact Ht.
    + intros Ht. apply elem_of_cons in Ht as [-> | Ht].
      * apply list_elem_of_here.
      * apply elem_of_cons in Ht as [-> | Ht].
        -- apply list_elem_of_here.
        -- exfalso. apply elem_of_nil in Ht. exact Ht.
Defined.

(** X9: a catalog skill that one of the four consulted fields names is
    kept, whatever the case and the surrounding white space on either
    side. *)
Theorem named_skill_is_kept (master : dict (list string)) (job_profile : json)
    (req pref tls kws : list string) (category skill x : string) :
  field_is job_profile "required_skills" req ->
  field_is job_profile "preferred_skills" pref ->
  field_is job_profile "tools" tls ->
  field_is job_profile "keywords" kws ->
  NoDup master.*1 ->
  x ∈ req ++ pref ++ tls ++ kws ->
  normalize_skill x = normalize_skill skill ->
  in_catalog master category skill ->
  exists out,
    build_relevant_skills master job_profile = Ok out /\ in_catalog out category skill.
Proof.
  intros H1 H2 H3 H4 Hnd Hx Hnorm Hin.
  rewrite build_relevant_skills_terms, (job_terms_fields _ _ _ _ _ H1 H2 H3 H4).
  eexists. split; [done|]. rewrite filter_catalog_restrict by done.
  apply in_restrict_catalog. split; [done|].
  apply (keep_skill_by_term _ (normalize_skill x)).
  - apply elem_of_list_to_set, list_elem_of_fmap. by exists x.
  - rewrite Hnorm. exists "", "". by rewrite app_empty_l, app_empty_r.
Qed.

Lemma named_skill_is_kept_witness :
  exists out,
    build_relevant_skills [("Cloud", ["Terraform"; "Ansible"])]
      (JDict [("tools", JList [JStr "  terraform"])]) = Ok out /\
    in_catalog out "Cloud" "Terraform".
Proof.
  apply (named_skill_is_kept [("Cloud", ["Terraform"; "Ansible"])]
           (JDict [("tools", JList [JStr "  terraform"])])
           [] [] ["  terraform"] [] "Cloud" "Terraform" "  terraform").
  - eexists. split; reflexivity.
  - eexists. split; reflexivity.
  - eexists. split; reflexivity.
  - eexists. split; reflexivity.
  - apply (bool_decide_unpack _). vm_compute. exact I.
  - apply (bool_decide_unpack _). vm_compute. exact I.
  - vm_compute. reflexivity.
  - exists ["Terraform"; "Ansible"]. split.
    + apply list_elem_of_here.
    + apply list_elem_of_here.
Defined.

End FilterEdges.

(** ** The skills table: what it shows *)

Section TableContent.

Lemma is_substring_refl (a : string) : is_substring a a.
Proof. exists "", "". by rewrite app_empty_l, app_empty_r. Qed.

Lemma is_substring_app_l (a b x : string) :
  is_substring a b -> is_substring a (x +:+ b).
Proof. intros (l & r & ->). exists (x +:+ l), r. by rewrite app_assoc_str. Qed.

Lemma is_substring_app_r (a b y : string) :
  is_substring a b -> is_substring a (b +:+ y).
Proof. intros (l & r & ->). exists l, (r +:+ y). by rewrite !app_assoc_str. Qed.

Lemma is_substring_trans (a b c : string) :
  is_substring a b -> is_substring b c -> is_substring a c.
Proof.
  intros Hab (l & r & ->). by apply is_substring_app_l, is_substring_app_r.
Qed.

Lemma category_row_shows (category : string) : is_substring category (category_row category).
Proof.
  unfold category_row. do 5 apply is_substring_app_l.
  apply is_substring_app_r, is_substring_refl.
Qed.

Lemma skill_row_shows_left (x y : string) : is_substring x (skill_row x y).
Proof.
  unfold skill_row. apply is_substring_app_l, is_substring_app_r, is_substring_refl.
Qed.

Lemma skill_row_shows_right (x y : string) : is_substring y (skill_row x y).
Proof.
  unfold skill_row. do 4 apply is_substring_app_l.
  apply is_substring_app_r, is_substring_refl.
Qed.

Lemma join_shows (sep row : string) (rows : list string) :
  row ∈ rows -> is_substring row (join sep rows).
Proof.
  induction rows as [|x [|y rows] IH]; intros Hin.
  - by apply elem_of_nil in Hin.
  - apply list_elem_of_singleton in Hin as ->. apply is_substring_refl.
  - change (join sep (x :: y :: rows)) with (x +:+ sep +:+ join sep (y :: rows)).
    apply elem_of_cons in Hin as [-> | Hin].
    + apply is_substring_app_r, is_substring_refl.
    + by apply is_substring_app_l, is_substring_app_l, IH.
Qed.

Lemma pair_rows_show (skills : list string) (skill : string) :
  skill ∈ skills ->
  exists row, row ∈ pair_rows skills /\ is_substring skill row.
Proof.
  induction skills as [| a | a b l IH] using list_pair_ind; intros Hin.
  - by apply elem_of_nil in Hin.
  - apply list_elem_of_singleton in Hin as ->. exists (skill_row a "").
    split; [apply list_elem_of_here | apply skill_row_shows_left].
  - cbn [pair_rows].
    apply elem_of_cons in Hin as [-> | Hin]; [|apply elem_of_cons in Hin as [-> | Hin]].
    + exists (skill_row a b). split; [apply list_elem_of_here | apply skill_row_shows_left].
    + exists (skill_row a b). split; [apply list_elem_of_here | apply skill_row_shows_right].
    + destruct (IH Hin) as (row & Hrow & Hsub). exists row.
      split; [by apply list_elem_of_further | done].
Qed.

Lemma rows_of_item (filtered_skills : dict (list string)) (item : string * list string)
    (row : string) :
  item ∈ filtered_skills ->
  row ∈ category_row item.1 :: pair_rows item.2 ->
  row ∈ concat ((fun item => category_row item.1 :: pair_rows item.2) <$> filtered_skills).
Proof.
  intros Hitem Hrow. apply list_elem_of_In, in_concat.
  exists (category_row item.1 :: pair_rows item.2). split.
  - apply list_elem_of_In, list_elem_of_fmap. by exists item.
  - by apply list_elem_of_In.
Qed.

(** X10: the renderer escapes nothing: it returns a markup in which the
    name of every category and of every skill of the mapping stands as it
    is, character for character. *)
Theorem table_shows_names_verbatim (filtered_skills : dict (list string)) :
  exists html,
    generate_skills_table_html filtered_skills = Ok html /\
    forall category skills,
      (category, skills) ∈ filtered_skills ->
      is_substring category html /\
      forall skill, skill ∈ skills -> is_substring skill html.
Proof.
  unfold generate_skills_table_html, table_rows. rewrite table_rows_acc. csimpl.
  eexists. split; [done|]. intros category skills Hitem.
  assert (forall row x,
            row ∈ category_row category :: pair_rows skills ->
            is_substring x row ->
            is_substring x ("<table>" +:+ nl +:+
              join nl (concat ((fun item => category_row item.1 :: pair_rows item.2)
                                 <$> filtered_skills))
              +:+ nl +:+ "</table>")) as Hshow.
  { intros row x Hrow Hx. apply (is_substring_trans _ row); [done|].
    apply is_substring_app_l, is_substring_app_l, is_substring_app_r.
    apply join_shows. by apply (rows_of_item _ (category, skills)). }
  split.
  - apply (Hshow (category_row category)); [apply list_elem_of_here|].
    apply category_row_shows.
  - intros skill Hskill. destruct (pair_rows_show skills skill Hskill) as (row & Hrow & Hsub).
    apply (Hshow row); [by apply list_elem_of_further | done].
Qed.

Lemma table_shows_names_verbatim_witness :
  exists html,
    generate_skills_table_html [("R&D", ["<b>C++</b>"; "Go"])] = Ok html /\
    is_substring "R&D" html /\ is_substring "<b>C++</b>" html.
Proof.
  destruct (table_shows_names_verbatim [("R&D", ["<b>C++</b>"; "Go"])])
    as (html & Hhtml & Hshow).
  exists html. split; [exact Hhtml|].
  destruct (Hshow "R&D" ["<b>C++</b>"; "Go"]) as [Hcat Hskills].
  { apply list_elem_of_here. }
  split; [exact Hcat|]. apply Hskills. apply list_elem_of_here.
Defined.

(** X11: the table of what the filter keeps has no header left alone:
    rendering the output of the filter raises nothing, and every category
    of it has at least one skill row under its header row. *)
Theorem filtered_table_has_skill_rows (master : dict (list string))
    (job_profile : json) (terms : gset string) :
  job_terms job_profile = Ok terms ->
  NoDup master.*1 ->
  exists out rows,
    build_relevant_skills master job_profile = Ok out /\
    table_rows out = Ok rows /\
    rows = concat ((fun item => category_row item.1 :: pair_rows item.2) <$> out) /\
    (forall item, item ∈ out -> 1 <= length (pair_rows item.2)) /\
    2 * length out <= length rows.
Proof.
  intros Hterms Hnd. rewrite build_relevant_skills_terms, Hterms.
  rewrite filter_catalog_restrict by done.
  set (out := restrict_catalog (keep_skill terms) master).
  assert (forall item, item ∈ out -> 1 <= length (pair_rows item.2)) as Hrows.
  { intros [c kept] (Hne & _)%restrict_catalog_elem. simpl.
    rewrite pair_rows_length. destruct kept as [|x kept]; [done|]. cbn [length].
    apply (Nat.div_le_lower_bound (S (length kept) + 1) 2 1); lia. }
  exists out, (concat ((fun item => category_row item.1 :: pair_rows item.2) <$> out)).
  split; [done|]. split; [unfold table_rows; by rewrite table_rows_acc|].
  split; [done|]. split; [done|].
  clearbody out. induction out as [|item out IH]; [done|].
  csimpl. rewrite length_app. cbn [length].
  pose proof (Hrows item (list_elem_of_here _ _)).
  assert (2 * length out <=
          length (concat ((fun item => category_row item.1 :: pair_rows item.2) <$> out))).
  { apply IH. intros i Hi. apply Hrows. by apply list_elem_of_further. }
  lia.
Qed.

Lemma filtered_table_has_skill_rows_witness :
  exists out rows,
    build_relevant_skills [("Databases", ["MySQL"; "Oracle"]); ("Legacy", ["COBOL"])]
                          sql_profile = Ok out /\
    table_rows out = Ok rows /\
    rows = concat ((fun item => category_row item.1 :: pair_rows item.2) <$> out) /\
    (forall item, item ∈ out -> 1 <= length (pair_rows item.2)) /\
    2 * length out <= length rows.
Proof.
  apply (filtered_table_has_skill_rows
           [("Databases", ["MySQL"; "Oracle"]); ("Legacy", ["COBOL"])] sql_profile {["sql"]}).
  - vm_compute. reflexivity.
  - apply (bool_decide_unpack _). vm_compute. exact I.
Defined.

End TableContent.

(** ** Templates without tokens, and filled templates *)

Section TemplateEdges.

(** A replacement whose [old] does not occur changes nothing. *)
Lemma replace_scan_absent (old new s : string) :
  str_in old s = false -> replace_scan old new 0 s = s.
Proof.
  induction s as [|c s IH]; [done|]. cbn [str_in].
  intros [Hstart Hrest]%orb_false_iff.
  rewrite (replace_scan_nomatch _ _ _ _ Hstart). f_equal. by apply IH.
Qed.

Lemma apply_replacements_absent (order : dict string) (html : string) :
  Forall (fun item => str_in (placeholder item.1) html = false) order ->
  apply_replacements order html = html.
Proof.
  unfold apply_replacements. induction 1 as [|[key value] order Hkey _ IH]; [done|].
  cbn [fold_left fst snd]. simpl in Hkey.
  by rewrite replace_placeholder, (replace_scan_absent _ _ _ Hkey).
Qed.

Lemma known_tokens_absent (env : string -> option string)
    (summary projects experience skills_table_html html : string) :
  (forall key, key ∈ known_keys -> str_in (placeholder key) html = false) ->
  Forall (fun item => str_in (placeholder item.1) html = false)
         (replacements env summary projects experience skills_table_html).
Proof.
  intros Hnone. apply Forall_forall. intros [key value] Hin. simpl.
  apply Hnone. rewrite <- (replacements_keys env summary projects experience skills_table_html).
  apply list_elem_of_fmap. by exists (key, value).
Qed.

(** X12: a template in which no token of a known key occurs comes back
    unchanged, whatever the environment and the four inserted texts are. *)
Theorem template_without_known_tokens_unchanged (env : string -> option string)
    (template summary projects experience skills_table_html : string) :
  (forall key, key ∈ known_keys -> str_in (placeholder key) template = false) ->
  fill_resume_template env template summary projects experience skills_table_html
  = template.
Proof.
  intros Hnone. rewrite fill_resume_template_replacements.
  by apply apply_replacements_absent, known_tokens_absent.
Qed.

Lemma template_without_known_tokens_unchanged_witness :
  fill_resume_template ada_env "<h1>{{NAME}}</h1><p>{ SUMMARY }</p>"
                       "{{PROJECTS}}" "p" "e" "<table></table>"
  = "<h1>{{NAME}}</h1><p>{ SUMMARY }</p>".
Proof.
  apply (template_without_known_tokens_unchanged ada_env
           "<h1>{{NAME}}</h1><p>{ SUMMARY }</p>" "{{PROJECTS}}" "p" "e" "<table></table>").
  intros key Hkey. unfold known_keys in Hkey.
  repeat (apply elem_of_cons in Hkey as [-> | Hkey]; [vm_compute; reflexivity|]).
  exfalso. apply elem_of_nil in Hkey. exact Hkey.
Defined.

(** X13: a filled resume is stable. When the template is made of tokens
    with proper keys and of safe text, and the inserted values are safe
    text, the result of [fill_resume_template] given again as the template,
    with any environment and any texts, comes back unchanged. *)
Theorem filled_resume_is_stable (env env' : string -> option string)
    (segs : list segment)
    (summary projects experience skills_table_html : string)
    (summary' projects' experience' skills_table_html' : string) :
  Forall (fun seg => segment_ok seg = true) segs ->
  Forall (fun item => safe_text item.2 = true)
         (replacements env summary projects experience skills_table_html) ->
  fill_resume_template env'
    (fill_resume_template env (render segs) summary projects experience skills_table_html)
    summary' projects' experience' skills_table_html'
  = fill_resume_template env (render segs) summary projects experience skills_table_html.
Proof.
  intros Hsegs Hvalues.
  set (order0 := replacements env summary projects experience skills_table_html) in *.
  assert (fill_resume_template env (render segs) summary projects experience
                               skills_table_html
          = render (fill_segment order0 <$> segs)) as Hout.
  { rewrite fill_resume_template_replacements. apply apply_replacements_render; [|done].
    apply Forall_and. split; [|done].
    apply (Forall_fmap fst (fun key => key_ok key = true)). apply known_keys_ok. }
  rewrite Hout, fill_resume_template_replacements.
  apply apply_replacements_absent, known_tokens_absent. intros key Hkey.
  apply str_in_render_none.
  - by apply (proj1 (Forall_forall _ _) known_keys_ok).
  - by apply fill_segment_ok.
  - by apply fill_segment_no_token.
Qed.

Lemma filled_resume_is_stable_witness :
  fill_resume_template no_env
    (fill_resume_template ada_env (render sample_template)
       (" Builds things." +:+ nl) ("One" +:+ nl +:+ "Two") "" "<table></table>")
    "Another summary" "Other projects" "Other experience" "<table>x</table>"
  = fill_resume_template ada_env (render sample_template)
      (" Builds things." +:+ nl) ("One" +:+ nl +:+ "Two") "" "<table></table>".
Proof.
  apply (filled_resume_is_stable ada_env no_env sample_template
           (" Builds things." +:+ nl) ("One" +:+ nl +:+ "Two") "" "<table></table>"
           "Another summary" "Other projects" "Other experience" "<table>x</table>").
  - apply (bool_decide_unpack _). vm_compute. exact I.
  - apply (bool_decide_unpack _). vm_compute. exact I.
Defined.

(** X14: in the cover letter every newline of the text has become a line
    break: the markup is the fixed frame around a body that holds no
    newline, and a text without newlines is the body as it is. *)
Theorem cover_letter_body_has_no_newline (text : string) (job_profile : json) :
  exists body,
    build_cover_letter_html text job_profile
    = (nl +:+ "    <html><body>" +:+ nl
       +:+ "    <div class=" +:+ dquote +:+ "container" +:+ dquote +:+ ">" +:+ nl
       +:+ "        <h2>Cover Letter</h2>" +:+ nl
       +:+ "        <p>")
      +:+ body
      +:+ ("</p>" +:+ nl +:+ "    </div>" +:+ nl +:+ "    </body></html>" +:+ nl +:+ "    ") /\
    str_in nl body = false /\
    (str_in nl text = false -> body = text).
Proof.
  exists (replace nl "<br>" text). split; [reflexivity|]. split.
  - apply replace_nl_no_newline.
  - intros Hnone. change (replace nl "<br>" text) with (replace_scan nl "<br>" 0 text).
    by apply replace_scan_absent.
Qed.

Lemma cover_letter_body_has_no_newline_witness :
  exists body,
    build_cover_letter_html "Dear team, I apply." sql_profile
    = (nl +:+ "    <html><body>" +:+ nl
       +:+ "    <div class=" +:+ dquote +:+ "container" +:+ dquote +:+ ">" +:+ nl
       +:+ "        <h2>Cover Letter</h2>" +:+ nl
       +:+ "        <p>")
      +:+ body
      +:+ ("</p>" +:+ nl +:+ "    </div>" +:+ nl +:+ "    </body></html>" +:+ nl +:+ "    ") /\
    str_in nl body = false /\
    body = "Dear team, I apply.".
Proof.
  destruct (cover_letter_body_has_no_newline "Dear team, I apply." sql_profile)
    as (body & Hhtml & Hnone & Hsame).
  exists body. split; [exact Hhtml|]. split; [exact Hnone|].
  apply Hsame. vm_compute. reflexivity.
Defined.

End TemplateEdges.

(** ** The start of the pipeline and the entry point *)

Section Callers.

Variable call_llm : string -> string -> result string.
Variable json_loads : string -> option json.

Lemma bind_Ok {A B : Type} (a : A) (f : A -> result B) : (Ok a ≫= f) = f a.
Proof. reflexivity. Qed.

(** X15: when the response of the model does not parse as JSON, the run
    goes on without a word: the skills table is the table of the catalog
    skills whose normalized form is in the always-keep list, whatever the
    posting and the response say. *)
Theorem unparsable_response_gives_always_kept_table (master : dict (list string))
    (job_posting text : string) :
  call_llm extract_system_prompt (extract_user_prompt job_posting) = Ok text ->
  json_loads text = None ->
  NoDup master.*1 ->
  tailor_skills_table call_llm json_loads master job_posting
  = generate_skills_table_html
      (restrict_catalog (fun skill => bool_decide (normalize_skill skill ∈ ALWAYS_KEEP))
                        master).
Proof.
  intros Hllm Hparse Hnd. unfold tailor_skills_table.
  assert (extract_job_profile call_llm json_loads job_posting = Ok empty_job_profile)
    as ->.
  { by rewrite (extract_job_profile_answer _ _ _ _ Hllm), Hparse. }
  rewrite bind_Ok, build_relevant_skills_terms.
  change (job_terms empty_job_profile) with (Ok (∅ : gset string) : result (gset string)).
  cbv beta iota. rewrite bind_Ok, filter_catalog_restrict by done. f_equal.
Qed.

(** X16: the run ends with an exception before any document is made when
    the model call raises (the same exception: the call is outside the
    [try]) and when the response parses as JSON to something that is not an
    object ([AttributeError], raised by the filter). *)
Theorem run_aborts_on_failed_call_or_non_record (master : dict (list string))
    (job_posting : string) :
  (forall e,
      call_llm extract_system_prompt (extract_user_prompt job_posting) = Raise e ->
      tailor_skills_table call_llm json_loads master job_posting = Raise e) /\
  (forall text v,
      call_llm extract_system_prompt (extract_user_prompt job_posting) = Ok text ->
      json_loads text = Some v ->
      is_dict v = false ->
      tailor_skills_table call_llm json_loads master job_posting = Raise AttributeError).
Proof.
  split.
  - intros e Hllm. unfold tailor_skills_table, extract_job_profile. by rewrite Hllm.
  - intros text v Hllm Hparse Hv. unfold tailor_skills_table.
    assert (extract_job_profile call_llm json_loads job_posting = Ok v) as ->.
    { by rewrite (extract_job_profile_answer _ _ _ _ Hllm), Hparse. }
    by rewrite bind_Ok, (filter_raises_on_non_record_aux master v Hv).
Qed.

End Callers.

Lemma unparsable_response_gives_always_kept_table_witness :
  tailor_skills_table (constant_llm "I cannot help with that.") JsonText.decode
                      [("Tools", ["Git"; "Excel"]); ("Other", ["COBOL"])]
                      "Junior developer, SQL required"
  = generate_skills_table_html
      (restrict_catalog (fun skill => bool_decide (normalize_skill skill ∈ ALWAYS_KEEP))
                        [("Tools", ["Git"; "Excel"]); ("Other", ["COBOL"])]).
Proof.
  apply (unparsable_response_gives_always_kept_table
           (constant_llm "I cannot help with that.") JsonText.decode
           [("Tools", ["Git"; "Excel"]); ("Other", ["COBOL"])]
           "Junior developer, SQL required" "I cannot help with that.").
  - reflexivity.
  - vm_compute. reflexivity.
  - apply (bool_decide_unpack _). vm_compute. exact I.
Defined.

Lemma run_aborts_on_failed_call_or_non_record_witness :
  tailor_skills_table (fun _ _ => Raise LLMError) JsonText.decode databases_catalog
                      "Junior developer" = Raise LLMError /\
  tailor_skills_table (constant_llm "[1, 2]") JsonText.decode databases_catalog
                      "Junior developer" = Raise AttributeError.
Proof.
  split.
  - apply (proj1 (run_aborts_on_failed_call_or_non_record
                    (fun _ _ => Raise LLMError) JsonText.decode databases_catalog
                    "Junior developer") LLMError).
    reflexivity.
  - apply (proj2 (run_aborts_on_failed_call_or_non_record
                    (constant_llm "[1, 2]") JsonText.decode databases_catalog
                    "Junior developer") "[1, 2]" (JList [JInt 1; JInt 2])).
    + reflexivity.
    + vm_compute. reflexivity.
    + reflexivity.
Defined.

Section EntryPoint.

Lemma read_posting_lines_cut (pre rest lines : list string) (blank : string) :
  Forall (fun line => strip line <> "") pre ->
  strip blank = "" ->
  read_posting_lines (pre ++ blank :: rest) lines = Some (lines ++ pre).
Proof.
  intros Hpre Hblank. revert lines.
  induction Hpre as [|line pre Hline _ IH]; intros lines; simpl.
  - by rewrite Hblank, app_nil_r.
  - destruct (strip line); [done|]. rewrite IH. by rewrite <- app_assoc.
Qed.

Lemma read_posting_lines_eof (stdin lines : list string) :
  Forall (fun line => strip line <> "") stdin ->
  read_posting_lines stdin lines = None.
Proof.
  intros Hall. revert lines.
  induction Hall as [|line stdin Hline _ IH]; intros lines; simpl; [done|].
  destruct (strip line); [done|]. apply IH.
Qed.

(** X17: the posting is cut at the first line that is empty or holds only
    white space: the text handed to the pipeline is the lines before it,
    joined by newlines, and nothing typed after it is read. *)
Theorem posting_is_cut_at_first_blank_line (pre rest : list string) (blank : string) :
  Forall (fun line => strip line <> "") pre ->
  strip blank = "" ->
  read_job_posting (pre ++ blank :: rest) = Some (join nl pre).
Proof.
  intros Hpre Hblank. unfold read_job_posting.
  by rewrite (read_posting_lines_cut pre rest [] blank Hpre Hblank).
Qed.

Lemma posting_is_cut_at_first_blank_line_witness :
  read_job_posting ["Junior developer"; "  SQL required"; "   "; "Benefits:"; "Remote"; ""]
  = Some (join nl ["Junior developer"; "  SQL required"]).
Proof.
  apply (posting_is_cut_at_first_blank_line ["Junior developer"; "  SQL required"]
           ["Benefits:"; "Remote"; ""] "   ").
  - repeat constructor; vm_compute; discriminate.
  - vm_compute. reflexivity.
Defined.

(** X18: when the input ends before any line that is empty or holds only
    white space, the entry point raises [EOFError] and the pipeline is not
    started. *)
Theorem posting_without_blank_line_raises_eof (stdin : list string) :
  Forall (fun line => strip line <> "") stdin ->
  read_job_posting stdin = None.
Proof.
  intros Hall. unfold read_job_posting. by rewrite (read_posting_lines_eof stdin [] Hall).
Qed.

Lemma posting_without_blank_line_raises_eof_witness :
  read_job_posting ["Junior developer"; "SQL required"] = None.
Proof.
  apply (posting_without_blank_line_raises_eof ["Junior developer"; "SQL required"]).
  repeat constructor; vm_compute; discriminate.
Defined.

End EntryPoint.
